(** * palm_island / bid_backend: account registration and e-mail verification

    A shallow embedding of the two Express servers of the repository,

    - [ServerClean]  : src/bid_backend/server-clean.js (registration is gated
                       by e-mail verification),
    - [Server]       : the second server file (users are verified on
                       registration, a welcome e-mail is sent),

    over a common model of the Mongoose model [User].

    What is modelled and how:
    - the [Users] collection is a list of documents in insertion order;
      [findOne] returns the first document that matches;
    - JSON request fields are either absent or strings ([option string]);
      the JavaScript test [!x] on such a value is [present x = None];
    - dates are milliseconds since the epoch, in [Z];
    - every request reads its surroundings from an [Env]: the clock, the
      bytes [crypto.randomBytes] returns, the salt bcrypt draws and the
      result the e-mail service reports;
    - bcryptjs is an interface ([Bcrypt]), its code is not part of the
      repository;
    - a handler is a function from the collection, the request and the
      environment to the new collection and the response; an exception
      thrown inside [try] becomes the 500 response of the [catch] block.
      [console.log] output is not modelled. *)

From Stdlib Require Import List String Ascii ZArith NArith Lia Bool.
From Stdlib Require Import Strings.Byte.
Import ListNotations.

Local Open Scope Z_scope.

(* ------------------------------------------------------------------ *)
(** ** JavaScript values of the request *)

(** [!x] is false exactly for a non-empty string. *)
Definition present (x : option string) : option string :=
  match x with
  | Some s => if String.eqb s "" then None else Some s
  | None => None
  end.

(** [a || b] on strings. *)
Definition js_or (a b : string) : string :=
  if String.eqb a "" then b else a.

(* ------------------------------------------------------------------ *)
(** ** crypto.randomBytes(n).toString('hex') *)

Definition hex_digit (n : N) : ascii :=
  match n with
  | 0%N => "0" | 1%N => "1" | 2%N => "2" | 3%N => "3"
  | 4%N => "4" | 5%N => "5" | 6%N => "6" | 7%N => "7"
  | 8%N => "8" | 9%N => "9" | 10%N => "a" | 11%N => "b"
  | 12%N => "c" | 13%N => "d" | 14%N => "e" | _ => "f"
  end%char.

Definition hex_of_byte (b : byte) : string :=
  let n := Byte.to_N b in
  String (hex_digit (n / 16)) (String (hex_digit (n mod 16)) EmptyString).

Fixpoint toString_hex (bs : list byte) : string :=
  match bs with
  | [] => EmptyString
  | b :: bs' => (hex_of_byte b ++ toString_hex bs')%string
  end.

Definition randomBytes (rnd : nat -> byte) (n : nat) : list byte :=
  map rnd (seq 0 n).

(* ------------------------------------------------------------------ *)
(** ** The Mongoose model *)

Module Mongoose.

(** Options of a [String] path of a schema.  [min] and [max] can be
    written on any path, but only [Number] and [Date] paths have
    validators of that name; a [String] path checks [required],
    [minlength] and [maxlength]. *)
Record StringPath := {
  required : bool;
  min : option nat;
  max : option nat;
  minlength : option nat;
  maxlength : option nat;
  unique : bool
}.

Definition validate_string (p : StringPath) (v : string) : bool :=
  (if required p then negb (String.eqb v "") else true)
  && match minlength p with
     | Some n => Nat.leb n (String.length v)
     | None => true
     end
  && match maxlength p with
     | Some n => Nat.leb (String.length v) n
     | None => true
     end.

Inductive Error :=
| ValidationError (path : string)
| DuplicateKey (index : string)
| DocumentNotFoundError.

(** [error.message]; the texts are shortened. *)
Definition message (e : Error) : string :=
  match e with
  | ValidationError path =>
      ("Users validation failed: " ++ path ++ ": Path `" ++ path ++ "` is required.")%string
  | DuplicateKey index =>
      ("E11000 duplicate key error index: " ++ index)%string
  | DocumentNotFoundError =>
      "No document found for query"%string
  end.

End Mongoose.

(** The schema of both server files (lines 11-45). *)
Module UserSchema.
Import Mongoose.

Definition plain (req uniq : bool) : StringPath :=
  {| required := req; min := None; max := None;
     minlength := None; maxlength := None; unique := uniq |}.

Definition fullname : StringPath :=
  {| required := true; min := Some 2%nat; max := Some 50%nat;
     minlength := None; maxlength := None; unique := false |}.
Definition email : StringPath := plain true true.
Definition role : StringPath := plain true false.
Definition password : StringPath := plain true false.
End UserSchema.

(** A stored document.  [createdAt] and [updatedAt] come from the schema
    option [timestamps: true]. *)
Module User.
Record t := {
  _id : N;
  fullname : string;
  email : string;
  role : string;
  password : string;
  isEmailVerified : bool;
  emailVerificationToken : option string;
  emailVerificationExpires : option Z;
  createdAt : Z;
  updatedAt : Z
}.
End User.
Definition User := User.t.

Definition Collection := list User.

Definition option_string_eq_dec (a b : option string) : {a = b} + {a <> b}.
Proof. decide equality. apply string_dec. Defined.

Definition option_Z_eq_dec (a b : option Z) : {a = b} + {a <> b}.
Proof. decide equality. apply Z.eq_dec. Defined.

Definition User_eq_dec (u v : User) : {u = v} + {u <> v}.
Proof.
  decide equality;
    auto using N.eq_dec, Z.eq_dec, string_dec, bool_dec,
               option_string_eq_dec, option_Z_eq_dec.
Defined.

Module Users.
Import Mongoose.

(** The fields the handlers pass to [User.create]. *)
Record Fields := {
  f_fullname : string;
  f_email : string;
  f_password : string;
  f_role : string;
  f_emailVerificationToken : option string;
  f_emailVerificationExpires : option Z;
  f_isEmailVerified : bool
}.

(** Queries of the handlers. *)
Definition by_email (e : string) (u : User) : bool :=
  String.eqb (User.email u) e.

(** [{ emailVerificationToken: token,
       emailVerificationExpires: { $gt: now } }]: a null field matches
    neither a string nor [$gt]. *)
Definition by_valid_token (token : string) (now : Z) (u : User) : bool :=
  match User.emailVerificationToken u, User.emailVerificationExpires u with
  | Some t, Some e => String.eqb t token && (now <? e)
  | _, _ => false
  end.

Definition by_id (i : N) (u : User) : bool := N.eqb (User._id u) i.

Definition findOne (q : User -> bool) (c : Collection) : option User :=
  find q c.

(** Schema validation before an insert. *)
Definition validate (f : Fields) : option Error :=
  if negb (validate_string UserSchema.fullname (f_fullname f))
  then Some (ValidationError "fullname")
  else if negb (validate_string UserSchema.email (f_email f))
  then Some (ValidationError "email")
  else if negb (validate_string UserSchema.role (f_role f))
  then Some (ValidationError "role")
  else if negb (validate_string UserSchema.password (f_password f))
  then Some (ValidationError "password")
  else None.

(** The driver gives every new document an ObjectId no other document
    of the collection has: here the least number above all of them. *)
Definition fresh_id (c : Collection) : N :=
  N.succ (fold_right N.max 0%N (map User._id c)).

(** [User.create(fields)]: validation, then the insert, which the unique
    index on [email] refuses for an e-mail that is already stored. *)
Definition create (now : Z) (f : Fields) (c : Collection)
  : Error + (Collection * User) :=
  match validate f with
  | Some e => inl e
  | None =>
      if existsb (by_email (f_email f)) c
      then inl (DuplicateKey "email_1")
      else
        let u := {| User._id := fresh_id c;
                    User.fullname := f_fullname f;
                    User.email := f_email f;
                    User.role := f_role f;
                    User.password := f_password f;
                    User.isEmailVerified := f_isEmailVerified f;
                    User.emailVerificationToken := f_emailVerificationToken f;
                    User.emailVerificationExpires := f_emailVerificationExpires f;
                    User.createdAt := now;
                    User.updatedAt := now |} in
        inr (c ++ [u], u)
  end.

(** Replace the first document whose [_id] is [i]. *)
Fixpoint replace (i : N) (u : User) (c : Collection) : Collection :=
  match c with
  | [] => []
  | d :: c' => if by_id i d then u :: c' else d :: replace i u c'
  end.

(** [user.save()] for a document that was read from the collection:
    nothing is written when no path was modified, otherwise the stored
    document gets the new values and a new [updatedAt]. *)
Definition save (now : Z) (u : User) (c : Collection) : Error + Collection :=
  match findOne (by_id (User._id u)) c with
  | None => inl DocumentNotFoundError
  | Some d =>
      if User_eq_dec d u then inr c
      else inr (replace (User._id u)
                  {| User._id := User._id u;
                     User.fullname := User.fullname u;
                     User.email := User.email u;
                     User.role := User.role u;
                     User.password := User.password u;
                     User.isEmailVerified := User.isEmailVerified u;
                     User.emailVerificationToken := User.emailVerificationToken u;
                     User.emailVerificationExpires := User.emailVerificationExpires u;
                     User.createdAt := User.createdAt u;
                     User.updatedAt := now |} c)
  end.

End Users.

(* ------------------------------------------------------------------ *)
(** ** What a request reads from outside, and what it answers *)

(** bcryptjs: [bcrypt.hash(password, rounds)] with the salt it draws made
    explicit, and [bcrypt.compare(password, hash)]. *)
Class Bcrypt := {
  bcrypt_hash : string -> nat -> string -> string;
  bcrypt_compare : string -> string -> bool;
  (** a hash is never the empty string (bcrypt hashes have 60 characters) *)
  bcrypt_hash_nonempty : forall p rounds salt, bcrypt_hash p rounds salt <> ""%string
}.

Module emailService.
(** Modelled from the spec: ./services/emailService is required by the
    second server and is not among the source files.  The spec gives
    [sendWelcome(email, fullName) -> {success, error?}]; the handlers
    read [success] and [error] of the result. *)
Record Result := { success : bool; error : option string }.
End emailService.

Record Env := {
  Date_now : Z;
  crypto_random : nat -> byte;
  bcrypt_salt : string;
  sendWelcomeEmail : string -> string -> emailService.Result
}.

#[warnings="-register-all"] Inductive Json :=
| JString (s : string)
| JBool (b : bool)
| JObjectId (i : N)
| JObject (o : list (string * Json)).

Inductive Body :=
| json (o : list (string * Json))
| send (text : string).

Record Response := { status : Z; body : Body }.

Definition respond (code : Z) (o : list (string * Json)) : Response :=
  {| status := code; body := json o |}.

(** The [catch] block of every handler. *)
Definition internal_error (error : Mongoose.Error) : Response :=
  respond 500
    [("message"%string,
      JString (js_or (Mongoose.message error) "Something went wrong"))].


Inductive Request :=
| PostRegister (fullname email password role : option string)
| GetVerifyEmail (token : option string)
| PostResendVerification (email : option string)
| PostLogin (email password : option string)
| GetRoot.

Definition day_ms : Z := 24 * 60 * 60 * 1000.

Definition new_token (env : Env) : string :=
  toString_hex (randomBytes (crypto_random env) 32).

(** Assignments to the fields of a document that was read. *)
Definition set_isEmailVerified (b : bool) (u : User) : User :=
  {| User._id := User._id u; User.fullname := User.fullname u; User.email := User.email u; User.role := User.role u;
     User.password := User.password u; User.isEmailVerified := b;
     User.emailVerificationToken := User.emailVerificationToken u;
     User.emailVerificationExpires := User.emailVerificationExpires u;
     User.createdAt := User.createdAt u; User.updatedAt := User.updatedAt u |}.

Definition set_emailVerificationToken (t : option string) (u : User) : User :=
  {| User._id := User._id u; User.fullname := User.fullname u; User.email := User.email u; User.role := User.role u;
     User.password := User.password u; User.isEmailVerified := User.isEmailVerified u;
     User.emailVerificationToken := t;
     User.emailVerificationExpires := User.emailVerificationExpires u;
     User.createdAt := User.createdAt u; User.updatedAt := User.updatedAt u |}.

Definition set_emailVerificationExpires (e : option Z) (u : User) : User :=
  {| User._id := User._id u; User.fullname := User.fullname u; User.email := User.email u; User.role := User.role u;
     User.password := User.password u; User.isEmailVerified := User.isEmailVerified u;
     User.emailVerificationToken := User.emailVerificationToken u;
     User.emailVerificationExpires := e;
     User.createdAt := User.createdAt u; User.updatedAt := User.updatedAt u |}.

(** [{ id, fullname, email, role, isEmailVerified }] of the login answer. *)
Definition user_summary (user : User) : Json :=
  JObject [("id"%string, JObjectId (User._id user));
           ("fullname"%string, JString (User.fullname user));
           ("email"%string, JString (User.email user));
           ("role"%string, JString (User.role user));
           ("isEmailVerified"%string, JBool (User.isEmailVerified user))].

(* ------------------------------------------------------------------ *)
(** ** src/bid_backend/server-clean.js *)

Module ServerClean.
Section Handlers.
Context `{Bcrypt}.

(** [app.post('/register')], lines 65-116. *)
Definition post_register (c : Collection) (env : Env)
    (fullname email password role : option string) : Collection * Response :=
  match present fullname, present email, present password, present role with
  | Some fullname, Some email, Some password, Some role =>
      match Users.findOne (Users.by_email email) c with
      | Some existingUser =>
          (c, respond 400 [("message"%string, JString "Email already exists")])
      | None =>
          let saltRounds := 10%nat in
          let hashedPassword := bcrypt_hash password saltRounds (bcrypt_salt env) in
          let verificationToken := new_token env in
          let verificationExpires := Date_now env + day_ms in
          match Users.create (Date_now env)
                  {| Users.f_fullname := fullname;
                     Users.f_email := email;
                     Users.f_password := hashedPassword;
                     Users.f_role := role;
                     Users.f_emailVerificationToken := Some verificationToken;
                     Users.f_emailVerificationExpires := Some verificationExpires;
                     Users.f_isEmailVerified := false |} c with
          | inl error => (c, internal_error error)
          | inr (c', newUser) =>
              (c', respond 201
                     [("message"%string,
                       JString "Registration successful! Please check your email to verify your account.");
                      ("userId"%string, JObjectId (User._id newUser));
                      ("verificationToken"%string, JString verificationToken)])
          end
      end
  | _, _, _, _ =>
      (c, respond 400 [("message"%string, JString "All fields are required")])
  end.

(** [app.get('/verify-email')], lines 119-152. *)
Definition get_verify_email (c : Collection) (env : Env)
    (token : option string) : Collection * Response :=
  match present token with
  | None =>
      (c, respond 400 [("message"%string, JString "Verification token is required")])
  | Some token =>
      match Users.findOne (Users.by_valid_token token (Date_now env)) c with
      | None =>
          (c, respond 400
                [("message"%string, JString "Invalid or expired verification token")])
      | Some user =>
          let user := set_isEmailVerified true user in
          let user := set_emailVerificationToken None user in
          let user := set_emailVerificationExpires None user in
          match Users.save (Date_now env) user c with
          | inl error => (c, internal_error error)
          | inr c' =>
              (c', respond 200
                     [("message"%string,
                       JString "Email verified successfully! You can now login to your account.");
                      ("isVerified"%string, JBool true)])
          end
      end
  end.

(** [app.post('/resend-verification')], lines 155-198. *)
Definition post_resend_verification (c : Collection) (env : Env)
    (email : option string) : Collection * Response :=
  match present email with
  | None => (c, respond 400 [("message"%string, JString "Email is required")])
  | Some email =>
      match Users.findOne (Users.by_email email) c with
      | None => (c, respond 404 [("message"%string, JString "User not found")])
      | Some user =>
          if User.isEmailVerified user
          then (c, respond 400 [("message"%string, JString "Email is already verified")])
          else
            let verificationToken := new_token env in
            let verificationExpires := Date_now env + day_ms in
            let user := set_emailVerificationToken (Some verificationToken) user in
            let user := set_emailVerificationExpires (Some verificationExpires) user in
            match Users.save (Date_now env) user c with
            | inl error => (c, internal_error error)
            | inr c' =>
                (c', respond 200
                       [("message"%string,
                         JString "Verification email sent successfully! Please check your email.");
                        ("verificationToken"%string, JString verificationToken)])
            end
      end
  end.

(** [app.post('/login')], lines 201-243. *)
Definition post_login (c : Collection) (env : Env)
    (email password : option string) : Collection * Response :=
  match present email, present password with
  | Some email, Some password =>
      match Users.findOne (Users.by_email email) c with
      | None =>
          (c, respond 401 [("message"%string, JString "Invalid email or password")])
      | Some user =>
          if negb (User.isEmailVerified user)
          then (c, respond 401
                     [("message"%string,
                       JString "Please verify your email before logging in");
                      ("emailVerified"%string, JBool false)])
          else
            let isPasswordValid := bcrypt_compare password (User.password user) in
            if negb isPasswordValid
            then (c, respond 401
                       [("message"%string, JString "Invalid email or password")])
            else (c, respond 200
                       [("message"%string, JString "Login successful");
                        ("user"%string, user_summary user)])
      end
  | _, _ =>
      (c, respond 400
            [("message"%string, JString "Email and password are required")])
  end.

(** [app.get('/')], lines 245-247 (the text starts with a check mark). *)
Definition get_root (c : Collection) : Collection * Response :=
  (c, {| status := 200; body := send "Email Verification API is running..." |}).

Definition handle (c : Collection) (env : Env) (r : Request)
  : Collection * Response :=
  match r with
  | PostRegister fullname email password role =>
      post_register c env fullname email password role
  | GetVerifyEmail token => get_verify_email c env token
  | PostResendVerification email => post_resend_verification c env email
  | PostLogin email password => post_login c env email password
  | GetRoot => get_root c
  end.

(** Requests served one after the other; the collection after the last. *)
Fixpoint run (c : Collection) (rs : list (Env * Request)) : Collection :=
  match rs with
  | [] => c
  | (env, r) :: rs' => run (fst (handle c env r)) rs'
  end.

End Handlers.
End ServerClean.

(* ------------------------------------------------------------------ *)
(** ** The second server file (users are verified on registration) *)

Module Server.
Section Handlers.
Context `{Bcrypt}.

(** What the handlers do with the result of [sendWelcomeEmail]:
    [console.log] on success, [console.error] otherwise. *)
Definition log_result (r : emailService.Result) : unit :=
  if emailService.success r then tt else tt.

(** [app.post('/register')], lines 65-118. *)
Definition post_register (c : Collection) (env : Env)
    (fullname email password role : option string) : Collection * Response :=
  match present fullname, present email, present password, present role with
  | Some fullname, Some email, Some password, Some role =>
      match Users.findOne (Users.by_email email) c with
      | Some existingUser =>
          (c, respond 400 [("message"%string, JString "Email already exists")])
      | None =>
          let saltRounds := 10%nat in
          let hashedPassword := bcrypt_hash password saltRounds (bcrypt_salt env) in
          let verificationToken := new_token env in
          let verificationExpires := Date_now env + day_ms in
          match Users.create (Date_now env)
                  {| Users.f_fullname := fullname;
                     Users.f_email := email;
                     Users.f_password := hashedPassword;
                     Users.f_role := role;
                     Users.f_emailVerificationToken := Some verificationToken;
                     Users.f_emailVerificationExpires := Some verificationExpires;
                     Users.f_isEmailVerified := true |} c with
          | inl error => (c, internal_error error)
          | inr (c', newUser) =>
              let emailResult := sendWelcomeEmail env email fullname in
              let _ := log_result emailResult in
              (c', respond 201
                     [("message"%string,
                       JString "Registration successful! Welcome to Palm Island Football Academy. You can now login to your account.");
                      ("userId"%string, JObjectId (User._id newUser))])
          end
      end
  | _, _, _, _ =>
      (c, respond 400 [("message"%string, JString "All fields are required")])
  end.

(** [app.get('/verify-email')], lines 121-164. *)
Definition get_verify_email (c : Collection) (env : Env)
    (token : option string) : Collection * Response :=
  match present token with
  | None =>
      (c, respond 400 [("message"%string, JString "Verification token is required")])
  | Some token =>
      match Users.findOne (Users.by_valid_token token (Date_now env)) c with
      | None =>
          (c, respond 400
                [("message"%string, JString "Invalid or expired verification token")])
      | Some user =>
          let user := set_isEmailVerified true user in
          let user := set_emailVerificationToken None user in
          let user := set_emailVerificationExpires None user in
          match Users.save (Date_now env) user c with
          | inl error => (c, internal_error error)
          | inr c' =>
              let welcomeResult :=
                sendWelcomeEmail env (User.email user) (User.fullname user) in
              let _ := log_result welcomeResult in
              (c', respond 200
                     [("message"%string,
                       JString "Email verified successfully! You can now login to your account.");
                      ("isVerified"%string, JBool true)])
          end
      end
  end.

(** [app.post('/login')], lines 167-204. *)
Definition post_login (c : Collection) (env : Env)
    (email password : option string) : Collection * Response :=
  match present email, present password with
  | Some email, Some password =>
      match Users.findOne (Users.by_email email) c with
      | None =>
          (c, respond 401 [("message"%string, JString "Invalid email or password")])
      | Some user =>
          let isPasswordValid := bcrypt_compare password (User.password user) in
          if negb isPasswordValid
          then (c, respond 401
                     [("message"%string, JString "Invalid email or password")])
          else (c, respond 200
                     [("message"%string, JString "Login successful");
                      ("user"%string, user_summary user)])
      end
  | _, _ =>
      (c, respond 400
            [("message"%string, JString "Email and password are required")])
  end.

(** [app.post('/resend-verification')], lines 207-240. *)
Definition post_resend_verification (c : Collection) (env : Env)
    (email : option string) : Collection * Response :=
  match present email with
  | None => (c, respond 400 [("message"%string, JString "Email is required")])
  | Some email =>
      match Users.findOne (Users.by_email email) c with
      | None => (c, respond 404 [("message"%string, JString "User not found")])
      | Some user =>
          let emailResult := sendWelcomeEmail env email (User.fullname user) in
          if emailService.success emailResult
          then (c, respond 200
                     [("message"%string,
                       JString "Welcome email sent successfully! Your account is already active.")])
          else (c, respond 500
                     [("message"%string,
                       JString "Failed to send welcome email. Please try again later.")])
      end
  end.

(** [app.get('/')], lines 242-244 (the text starts with a check mark). *)
Definition get_root (c : Collection) : Collection * Response :=
  (c, {| status := 200; body := send "Email Verification API is running..." |}).

Definition handle (c : Collection) (env : Env) (r : Request)
  : Collection * Response :=
  match r with
  | PostRegister fullname email password role =>
      post_register c env fullname email password role
  | GetVerifyEmail token => get_verify_email c env token
  | PostResendVerification email => post_resend_verification c env email
  | PostLogin email password => post_login c env email password
  | GetRoot => get_root c
  end.

Fixpoint run (c : Collection) (rs : list (Env * Request)) : Collection :=
  match rs with
  | [] => c
  | (env, r) :: rs' => run (fst (handle c env r)) rs'
  end.

End Handlers.
End Server.

(* ------------------------------------------------------------------ *)
(** ** Properties of the collection *)

Definition unique_ids (c : Collection) : Prop := NoDup (map User._id c).
Definition unique_emails (c : Collection) : Prop := NoDup (map User.email c).

(** The number of accounts stored under an e-mail address. *)
Definition accounts_with (e : string) (c : Collection) : nat :=
  List.length (filter (Users.by_email e) c).

(** No stored document carries the token [t]. *)
Definition token_absent (t : string) (c : Collection) : Prop :=
  forall u, In u c -> User.emailVerificationToken u <> Some t.

(** At most one stored document carries the token [t]. *)
Definition token_unique (t : string) (c : Collection) : Prop :=
  forall u v, In u c -> In v c ->
    User.emailVerificationToken u = Some t ->
    User.emailVerificationToken v = Some t -> u = v.

(** The document [Users.save] writes for [u] at time [now]. *)
Definition stamped (now : Z) (u : User) : User :=
  {| User._id := User._id u;
     User.fullname := User.fullname u;
     User.email := User.email u;
     User.role := User.role u;
     User.password := User.password u;
     User.isEmailVerified := User.isEmailVerified u;
     User.emailVerificationToken := User.emailVerificationToken u;
     User.emailVerificationExpires := User.emailVerificationExpires u;
     User.createdAt := User.createdAt u;
     User.updatedAt := now |}.

(** The document [get_verify_email] hands to [save]. *)
Definition verified (u : User) : User :=
  set_emailVerificationExpires None
    (set_emailVerificationToken None (set_isEmailVerified true u)).

(** What a successful [create] stores. *)
Definition created (now : Z) (f : Users.Fields) (c : Collection) : User :=
  {| User._id := Users.fresh_id c;
     User.fullname := Users.f_fullname f;
     User.email := Users.f_email f;
     User.role := Users.f_role f;
     User.password := Users.f_password f;
     User.isEmailVerified := Users.f_isEmailVerified f;
     User.emailVerificationToken := Users.f_emailVerificationToken f;
     User.emailVerificationExpires := Users.f_emailVerificationExpires f;
     User.createdAt := now;
     User.updatedAt := now |}.

Definition invalid_or_expired : Response :=
  respond 400 [("message"%string, JString "Invalid or expired verification token")].

Definition email_verified : Response :=
  respond 200
    [("message"%string,
      JString "Email verified successfully! You can now login to your account.");
     ("isVerified"%string, JBool true)].

(** Ids and e-mail addresses are keys. *)
Definition well_formed (c : Collection) : Prop :=
  unique_ids c /\ unique_emails c.

(** The requests of [rs] draw tokens other than [t]. *)
Definition draws_other (t : string) (rs : list (Env * Request)) : Prop :=
  Forall (fun er => new_token (fst er) <> t) rs.

Definition email_exists : Response :=
  respond 400 [("message"%string, JString "Email already exists")].

Definition invalid_credentials : Response :=
  respond 401 [("message"%string, JString "Invalid email or password")].

(** The same surroundings with another e-mail service, or other random
    bytes. *)
Definition with_mail (env : Env)
    (m : string -> string -> emailService.Result) : Env :=
  {| Date_now := Date_now env;
     crypto_random := crypto_random env;
     bcrypt_salt := bcrypt_salt env;
     sendWelcomeEmail := m |}.


(** Two registrations of one e-mail address, one after the other, by the
    handler [post_register] of either server: the first appends one
    account, the second is refused and stores nothing. *)
Definition registers_once
    (post_register : Collection -> Env -> option string -> option string ->
                     option string -> option string -> Collection * Response)
    (c : Collection) (env1 env2 : Env) (e fn1 pw1 ro1 fn2 pw2 ro2 : string)
    : Prop :=
  exists u r1,
    post_register c env1 (Some fn1) (Some e) (Some pw1) (Some ro1)
      = (c ++ [u], r1) /\
    status r1 = 201 /\
    User.email u = e /\
    accounts_with e (c ++ [u]) = 1%nat /\
    unique_emails (c ++ [u]) /\
    post_register (c ++ [u]) env2 (Some fn2) (Some e) (Some pw2) (Some ro2)
      = (c ++ [u], email_exists).

(** A successful [GET /verify-email] by the handler [get_verify_email] of
    either server: the token was stored with an expiry after the clock
    of the request, and from then on the token is refused, whatever
    requests are served in between as long as none draws the same
    token again; [run] is the server's [run]. *)
Definition consumed_once
    (get_verify_email : Collection -> Env -> option string ->
                        Collection * Response)
    (run : Collection -> list (Env * Request) -> Collection)
    (c : Collection) (env : Env) (t : string) : Prop :=
  forall c' r,
    get_verify_email c env (Some t) = (c', r) -> status r = 200 ->
    (exists u e, In u c /\ User.emailVerificationToken u = Some t /\
                 User.emailVerificationExpires u = Some e /\
                 Date_now env < e) /\
    (forall rs env', draws_other t rs ->
       get_verify_email (run c' rs) env' (Some t)
         = (run c' rs, invalid_or_expired)).

(** The effect of [GET /verify-email] on the collection: on a 200 answer
    one document, the matched one, is rewritten with both token fields
    null; on any other answer nothing is written. *)
Definition clears_consumed
    (get_verify_email : Collection -> Env -> option string ->
                        Collection * Response)
    (c : Collection) (env : Env) (token : option string) : Prop :=
  forall c' r,
    get_verify_email c env token = (c', r) ->
    (status r = 200 ->
     exists l1 u0 l2 u',
       c = l1 ++ u0 :: l2 /\ c' = l1 ++ u' :: l2 /\
       User.emailVerificationToken u0 = token /\
       User._id u' = User._id u0 /\
       User.isEmailVerified u' = true /\
       User.emailVerificationToken u' = None /\
       User.emailVerificationExpires u' = None) /\
    (status r <> 200 -> c' = c).

(** The fields [post_register] of [ServerClean] passes to [create]. *)
Definition clean_fields `{Bcrypt} (env : Env) (fn e pw ro : string)
  : Users.Fields :=
  {| Users.f_fullname := fn;
     Users.f_email := e;
     Users.f_password := bcrypt_hash pw 10%nat (bcrypt_salt env);
     Users.f_role := ro;
     Users.f_emailVerificationToken := Some (new_token env);
     Users.f_emailVerificationExpires := Some (Date_now env + day_ms);
     Users.f_isEmailVerified := false |}.

(** The same for [Server]: the account is verified from the start. *)
Definition server_fields `{Bcrypt} (env : Env) (fn e pw ro : string)
  : Users.Fields :=
  {| Users.f_fullname := fn;
     Users.f_email := e;
     Users.f_password := bcrypt_hash pw 10%nat (bcrypt_salt env);
     Users.f_role := ro;
     Users.f_emailVerificationToken := Some (new_token env);
     Users.f_emailVerificationExpires := Some (Date_now env + day_ms);
     Users.f_isEmailVerified := true |}.

(** The 201 answers of the two servers. *)
Definition clean_registered (env : Env) (u : User) : Response :=
  respond 201
    [("message"%string,
      JString "Registration successful! Please check your email to verify your account.");
     ("userId"%string, JObjectId (User._id u));
     ("verificationToken"%string, JString (new_token env))].

Definition server_registered (u : User) : Response :=
  respond 201
    [("message"%string,
      JString "Registration successful! Welcome to Palm Island Football Academy. You can now login to your account.");
     ("userId"%string, JObjectId (User._id u))].

(** The two answers of [POST /resend-verification] of [Server] once the
    account was found. *)
Definition welcome_sent : Response :=
  respond 200
    [("message"%string,
      JString "Welcome email sent successfully! Your account is already active.")].

Definition welcome_failed : Response :=
  respond 500
    [("message"%string,
      JString "Failed to send welcome email. Please try again later.")].

(** The other answers of the handlers. *)
Definition all_fields_required : Response :=
  respond 400 [("message"%string, JString "All fields are required")].

Definition token_required : Response :=
  respond 400 [("message"%string, JString "Verification token is required")].

Definition email_required : Response :=
  respond 400 [("message"%string, JString "Email is required")].

Definition credentials_required : Response :=
  respond 400 [("message"%string, JString "Email and password are required")].

Definition user_not_found : Response :=
  respond 404 [("message"%string, JString "User not found")].

Definition already_verified : Response :=
  respond 400 [("message"%string, JString "Email is already verified")].

Definition email_not_verified : Response :=
  respond 401
    [("message"%string, JString "Please verify your email before logging in");
     ("emailVerified"%string, JBool false)].

Definition login_ok (user : User) : Response :=
  respond 200
    [("message"%string, JString "Login successful");
     ("user"%string, user_summary user)].

Definition resend_ok (env : Env) : Response :=
  respond 200
    [("message"%string,
      JString "Verification email sent successfully! Please check your email.");
     ("verificationToken"%string, JString (new_token env))].

(** The document [post_resend_verification] of [ServerClean] hands to
    [save]. *)
Definition reissued (env : Env) (u : User) : User :=
  set_emailVerificationExpires (Some (Date_now env + day_ms))
    (set_emailVerificationToken (Some (new_token env)) u).

(** The fields of a document no handler assigns to. *)
Definition core (u : User) : N * string * string * string * string * Z :=
  (User._id u, User.fullname u, User.email u, User.role u, User.password u,
   User.createdAt u).

(** Token and expiry are both null or both set. *)
Definition token_paired (u : User) : Prop :=
  User.emailVerificationToken u = None <-> User.emailVerificationExpires u = None.

Definition tokens_paired (c : Collection) : Prop :=
  forall u, In u c -> token_paired u.

Definition all_verified (c : Collection) : Prop :=
  forall u, In u c -> User.isEmailVerified u = true.

(** The account with the id of [u] is in [c] and is verified. *)
Definition still_verified (u : User) (c : Collection) : Prop :=
  exists u', In u' c /\ User._id u' = User._id u /\
             User.isEmailVerified u' = true.

(** The collection [c'] holds the documents of [c], in their order and
    with their core fields, followed by new ones. *)
Definition extends (c c' : Collection) : Prop :=
  exists new, map core c' = map core c ++ new.

(** Every request of [rs], served in turn by [handle] from [c] on, draws a
    token that no stored document carries at that moment. *)
Fixpoint fresh_draws
    (handle : Collection -> Env -> Request -> Collection * Response)
    (c : Collection) (rs : list (Env * Request)) : Prop :=
  match rs with
  | [] => True
  | (env, r) :: rs' =>
      token_absent (new_token env) c /\
      fresh_draws handle (fst (handle c env r)) rs'
  end.

(** Data for the examples. *)
Module Sample.

(** A stand-in for bcryptjs on which the handlers can be evaluated; it is
    not a hash. *)
Definition bcrypt : Bcrypt :=
  {| bcrypt_hash := fun p _ _ => ("$2a$10$" ++ p)%string;
     bcrypt_compare := fun p h => String.eqb h ("$2a$10$" ++ p)%string;
     bcrypt_hash_nonempty := fun p _ _ (E : ("$2a$10$" ++ p)%string = ""%string) =>
       eq_ind ("$2a$10$" ++ p)%string
         (fun s => match s with EmptyString => False | String _ _ => True end)
         I _ E |}.

Definition mail (ok : bool) : string -> string -> emailService.Result :=
  fun _ _ =>
    {| emailService.success := ok;
       emailService.error :=
         if ok then None else Some "connect ECONNREFUSED"%string |}.

(** The clock reads [now], every random byte is [b], the e-mail service
    answers [ok]. *)
Definition env (now : Z) (b : byte) (ok : bool) : Env :=
  {| Date_now := now;
     crypto_random := fun _ => b;
     bcrypt_salt := "N9qo8uLOickgx2ZMRZoMye"%string;
     sendWelcomeEmail := mail ok |}.

Definition jane : option string := Some "jane@x.com"%string.

(** The collection of [ServerClean] after Jane registered at time 1000. *)
Definition clean_after_register : Collection :=
  fst (@ServerClean.post_register bcrypt [] (env 1000 xab true)
         (Some "Jane Doe"%string) jane (Some "secret123"%string)
         (Some "player"%string)).

(** The same for [Server]. *)
Definition server_after_register : Collection :=
  fst (@Server.post_register bcrypt [] (env 1000 xab true)
         (Some "Jane Doe"%string) jane (Some "secret123"%string)
         (Some "player"%string)).

Definition jane_token : string := new_token (env 1000 xab true).

End Sample.

(* ------------------------------------------------------------------ *)
(** ** Facts about the collection *)

Section StoreFacts.

Lemma present_Some x s : present x = Some s -> x = Some s /\ s <> ""%string.
Proof.
  destruct x as [t|]; simpl; [|discriminate].
  destruct (String.eqb_spec t ""); [discriminate|].
  intros [= ->]. auto.
Qed.

Lemma present_string s : s <> ""%string -> present (Some s) = Some s.
Proof.
  intros Hs. simpl. destruct (String.eqb_spec s ""); congruence.
Qed.

Lemma fold_max_ge (l : list N) (n : N) :
  In n l -> (n <= fold_right N.max 0 l)%N.
Proof.
  induction l as [|m l IH]; simpl; [tauto|].
  intros [->|Hin]; [lia|]. specialize (IH Hin). lia.
Qed.

Lemma fresh_id_fresh (c : Collection) (u : User) :
  In u c -> User._id u <> Users.fresh_id c.
Proof.
  intros Hin Heq. unfold Users.fresh_id in Heq.
  assert (Hle : (User._id u <= fold_right N.max 0 (map User._id c))%N).
  { apply fold_max_ge. apply in_map. exact Hin. }
  lia.
Qed.

Lemma findOne_email_None e (c : Collection) :
  Users.findOne (Users.by_email e) c = None <->
  existsb (Users.by_email e) c = false.
Proof.
  unfold Users.findOne. induction c as [|d c IH]; simpl; [tauto|].
  destruct (Users.by_email e d); simpl; [split; discriminate|exact IH].
Qed.

Lemma findOne_email_None_notin e (c : Collection) :
  Users.findOne (Users.by_email e) c = None -> ~ In e (map User.email c).
Proof.
  unfold Users.findOne. intros Hf Hin.
  apply in_map_iff in Hin. destruct Hin as [u [Hu Hin]].
  pose proof (find_none _ _ Hf u Hin) as Hq.
  unfold Users.by_email in Hq. rewrite Hu, String.eqb_refl in Hq. discriminate.
Qed.

Lemma findOne_email_None_count e (c : Collection) :
  Users.findOne (Users.by_email e) c = None -> accounts_with e c = 0%nat.
Proof.
  unfold Users.findOne, accounts_with.
  induction c as [|d c IH]; simpl; [reflexivity|].
  destruct (Users.by_email e d); [discriminate|exact IH].
Qed.

Lemma create_ok now f (c : Collection) :
  Users.f_fullname f <> ""%string -> Users.f_email f <> ""%string ->
  Users.f_role f <> ""%string -> Users.f_password f <> ""%string ->
  Users.findOne (Users.by_email (Users.f_email f)) c = None ->
  Users.create now f c = inr (c ++ [created now f c], created now f c).
Proof.
  intros Hn He Hr Hp Hf. unfold Users.create, Users.validate.
  unfold Mongoose.validate_string; simpl.
  apply String.eqb_neq in Hn, He, Hr, Hp.
  rewrite Hn, He, Hr, Hp; simpl.
  apply findOne_email_None in Hf. rewrite Hf. reflexivity.
Qed.

Lemma create_inr now f (c c' : Collection) u :
  Users.create now f c = inr (c', u) ->
  u = created now f c /\ c' = c ++ [u] /\
  Users.findOne (Users.by_email (Users.f_email f)) c = None.
Proof.
  unfold Users.create. destruct (Users.validate f); [discriminate|].
  destruct (existsb _ c) eqn:Hex; [discriminate|].
  intros [= <- <-]. repeat split. apply findOne_email_None. exact Hex.
Qed.

Lemma create_unique_ids now f (c c' : Collection) u :
  unique_ids c -> Users.create now f c = inr (c', u) -> unique_ids c'.
Proof.
  intros Hc Hcr. apply create_inr in Hcr. destruct Hcr as [-> [-> _]].
  unfold unique_ids in *. rewrite map_app. simpl.
  apply NoDup_app; [exact Hc|repeat constructor; simpl; tauto|].
  intros i Hin [<-|[]].
  apply in_map_iff in Hin. destruct Hin as [d [Hd Hin]].
  exact (fresh_id_fresh c d Hin Hd).
Qed.

Lemma create_unique_emails now f (c c' : Collection) u :
  unique_emails c -> Users.create now f c = inr (c', u) -> unique_emails c'.
Proof.
  intros Hc Hcr. apply create_inr in Hcr. destruct Hcr as [-> [-> Hf]].
  unfold unique_emails in *. rewrite map_app. simpl.
  apply NoDup_app; [exact Hc|repeat constructor; simpl; tauto|].
  intros e Hin [<-|[]].
  exact (findOne_email_None_notin _ _ Hf Hin).
Qed.

End StoreFacts.

Section SaveFacts.

Lemma unique_ids_split (l1 l2 : Collection) (u0 : User) :
  unique_ids (l1 ++ u0 :: l2) ->
  forall d, In d l1 \/ In d l2 -> User._id d <> User._id u0.
Proof.
  unfold unique_ids. rewrite map_app. simpl. intros Hnd d Hd Heq.
  apply NoDup_remove_2 in Hnd. apply Hnd. rewrite <- Heq.
  apply in_or_app. destruct Hd as [Hd|Hd]; [left|right]; apply in_map; exact Hd.
Qed.

Lemma findOne_by_id_split (l1 l2 : Collection) (u0 : User) :
  (forall d, In d l1 -> User._id d <> User._id u0) ->
  Users.findOne (Users.by_id (User._id u0)) (l1 ++ u0 :: l2) = Some u0.
Proof.
  unfold Users.findOne, Users.by_id.
  induction l1 as [|d l1 IH]; simpl; intros Hl1.
  - rewrite N.eqb_refl. reflexivity.
  - destruct (N.eqb_spec (User._id d) (User._id u0)) as [Heq|_].
    + exfalso. apply (Hl1 d); auto.
    + apply IH. intros d' Hd'. apply Hl1. auto.
Qed.

Lemma replace_split (l1 l2 : Collection) (u0 u : User) :
  (forall d, In d l1 -> User._id d <> User._id u0) ->
  Users.replace (User._id u0) u (l1 ++ u0 :: l2) = l1 ++ u :: l2.
Proof.
  unfold Users.by_id.
  induction l1 as [|d l1 IH]; simpl; intros Hl1.
  - unfold Users.by_id. rewrite N.eqb_refl. reflexivity.
  - unfold Users.by_id.
    destruct (N.eqb_spec (User._id d) (User._id u0)) as [Heq|_].
    + exfalso. apply (Hl1 d); auto.
    + f_equal. apply IH. intros d' Hd'. apply Hl1. auto.
Qed.

(** [save] of a changed copy of a stored document rewrites that document
    in place and leaves every other document alone. *)
Lemma save_modified now (l1 l2 : Collection) (u0 u : User) :
  unique_ids (l1 ++ u0 :: l2) ->
  User._id u = User._id u0 -> u <> u0 ->
  Users.save now u (l1 ++ u0 :: l2) = inr (l1 ++ stamped now u :: l2).
Proof.
  intros Hnd Hid Hne. unfold Users.save. rewrite Hid.
  pose proof (unique_ids_split _ _ _ Hnd) as Hsp.
  rewrite findOne_by_id_split by (intros d Hd; apply Hsp; auto).
  destruct (User_eq_dec u0 u) as [Heq|_]; [congruence|].
  rewrite replace_split by (intros d Hd; apply Hsp; auto).
  unfold stamped. rewrite Hid. reflexivity.
Qed.

Lemma save_unmodified now (l1 l2 : Collection) (u0 : User) :
  unique_ids (l1 ++ u0 :: l2) ->
  Users.save now u0 (l1 ++ u0 :: l2) = inr (l1 ++ u0 :: l2).
Proof.
  intros Hnd. unfold Users.save.
  pose proof (unique_ids_split _ _ _ Hnd) as Hsp.
  rewrite findOne_by_id_split by (intros d Hd; apply Hsp; auto).
  destruct (User_eq_dec u0 u0) as [_|Hne]; [reflexivity|congruence].
Qed.

Lemma in_replace i (u x : User) (c : Collection) :
  In x (Users.replace i u c) -> In x c \/ x = u.
Proof.
  induction c as [|d c IH]; simpl; [tauto|].
  destruct (Users.by_id i d); simpl; intros [Hx|Hx]; auto.
  destruct (IH Hx); auto.
Qed.

(** Whatever [save] returns, a document of the new collection is an old
    one or the saved one. *)
Lemma in_save now (u x : User) (c c' : Collection) :
  Users.save now u c = inr c' -> In x c' -> In x c \/ x = stamped now u.
Proof.
  unfold Users.save. destruct (Users.findOne _ c); [|discriminate].
  destruct (User_eq_dec _ _); intros [= <-]; [auto|].
  apply in_replace.
Qed.

Lemma find_split (q : User -> bool) (c : Collection) (u0 : User) :
  find q c = Some u0 ->
  exists l1 l2, c = l1 ++ u0 :: l2 /\ q u0 = true /\
                forall d, In d l1 -> q d = false.
Proof.
  induction c as [|d c IH]; simpl; [discriminate|].
  destruct (q d) eqn:Hq.
  - intros [= ->]. exists [], c. simpl. repeat split; tauto.
  - intros Hf. destruct (IH Hf) as [l1 [l2 [-> [Hq0 Hl1]]]].
    exists (d :: l1), l2. simpl. repeat split; auto.
    intros d' [<-|Hd']; auto.
Qed.

Lemma valid_token_fields t now (u : User) :
  Users.by_valid_token t now u = true ->
  User.emailVerificationToken u = Some t /\
  exists e, User.emailVerificationExpires u = Some e /\ now < e.
Proof.
  unfold Users.by_valid_token.
  destruct (User.emailVerificationToken u) as [t'|]; [|discriminate].
  destruct (User.emailVerificationExpires u) as [e|]; [|discriminate].
  intros Hb. apply andb_prop in Hb. destruct Hb as [Ht He].
  apply String.eqb_eq in Ht. apply Z.ltb_lt in He. subst. eauto.
Qed.

Lemma verified_changed t (u : User) :
  User.emailVerificationToken u = Some t -> verified u <> u.
Proof.
  intros Ht Heq. apply (f_equal User.emailVerificationToken) in Heq.
  simpl in Heq. congruence.
Qed.

End SaveFacts.

(* ------------------------------------------------------------------ *)
(** ** GET /verify-email *)

Section VerifyEmail.
Context `{Bcrypt}.

(** Both servers have the same handler but for the welcome e-mail, whose
    result the second one only logs. *)
Lemma verify_email_same c env token :
  Server.get_verify_email c env token = ServerClean.get_verify_email c env token.
Proof. reflexivity. Qed.

Lemma verify_unmatched (c : Collection) env t :
  t <> ""%string ->
  Users.findOne (Users.by_valid_token t (Date_now env)) c = None ->
  ServerClean.get_verify_email c env (Some t) = (c, invalid_or_expired).
Proof.
  intros Ht Hf. unfold ServerClean.get_verify_email.
  rewrite (present_string t Ht), Hf. reflexivity.
Qed.

Lemma verify_matched (c : Collection) env t u0 :
  t <> ""%string -> unique_ids c ->
  Users.findOne (Users.by_valid_token t (Date_now env)) c = Some u0 ->
  exists l1 l2,
    c = l1 ++ u0 :: l2 /\
    ServerClean.get_verify_email c env (Some t)
    = (l1 ++ stamped (Date_now env) (verified u0) :: l2, email_verified).
Proof.
  intros Ht Hids Hf. unfold ServerClean.get_verify_email.
  rewrite (present_string t Ht), Hf.
  destruct (find_split _ _ _ Hf) as [l1 [l2 [-> [Hq _]]]].
  exists l1, l2. split; [reflexivity|].
  destruct (valid_token_fields _ _ _ Hq) as [Htok _].
  change (set_emailVerificationExpires None
            (set_emailVerificationToken None (set_isEmailVerified true u0)))
    with (verified u0).
  rewrite (save_modified _ l1 l2 u0 (verified u0) Hids eq_refl
             (verified_changed t u0 Htok)).
  reflexivity.
Qed.

(** A 200 answer means that the query matched. *)
Lemma verify_200 (c c' : Collection) env token r :
  ServerClean.get_verify_email c env token = (c', r) -> status r = 200 ->
  exists t u0, token = Some t /\ t <> ""%string /\
    Users.findOne (Users.by_valid_token t (Date_now env)) c = Some u0.
Proof.
  unfold ServerClean.get_verify_email.
  destruct (present token) as [t|] eqn:Hp.
  - apply present_Some in Hp. destruct Hp as [-> Ht].
    destruct (Users.findOne _ c) as [u0|] eqn:Hf.
    + intros _ _. eauto.
    + intros [= <- <-]. discriminate.
  - intros [= <- <-]. discriminate.
Qed.

Lemma token_absent_unmatched t now (c : Collection) :
  token_absent t c -> Users.findOne (Users.by_valid_token t now) c = None.
Proof.
  intros Habs. unfold Users.findOne.
  destruct (find _ c) as [u|] eqn:Hf; [|reflexivity].
  apply find_some in Hf. destruct Hf as [Hin Hq].
  apply valid_token_fields in Hq. destruct Hq as [Ht _].
  exfalso. exact (Habs u Hin Ht).
Qed.

(** After the token of a well-formed collection was consumed, no document
    carries it. *)
Lemma consumed_token_absent (c c' : Collection) env t r :
  unique_ids c -> token_unique t c ->
  ServerClean.get_verify_email c env (Some t) = (c', r) -> status r = 200 ->
  token_absent t c'.
Proof.
  intros Hids Huniq Hrun Hst.
  destruct (verify_200 _ _ _ _ _ Hrun Hst) as [t' [u0 [[= <-] [Ht Hf]]]].
  destruct (verify_matched c env t u0 Ht Hids Hf) as [l1 [l2 [-> Heq]]].
  rewrite Heq in Hrun. injection Hrun as <- _.
  apply find_some in Hf. destruct Hf as [Hin0 Hq].
  apply valid_token_fields in Hq. destruct Hq as [Ht0 _].
  intros x Hx Hxt.
  apply in_app_or in Hx. simpl in Hx.
  assert (Hold : In x l1 \/ In x l2 -> False).
  { intros Hx'.
    assert (Hxin : In x (l1 ++ u0 :: l2)).
    { apply in_or_app. simpl. tauto. }
    pose proof (Huniq x u0 Hxin Hin0 Hxt Ht0) as ->.
    exact (unique_ids_split _ _ _ Hids u0 Hx' eq_refl). }
  destruct Hx as [Hx|[<-|Hx]]; [tauto| |tauto].
  simpl in Hxt. discriminate.
Qed.

End VerifyEmail.

(* ------------------------------------------------------------------ *)
(** ** Invariants of the collection under the handlers *)

Section Invariants.
Context `{Bcrypt}.

Lemma save_found now (q : User -> bool) (c : Collection) (u0 u : User) :
  unique_ids c -> find q c = Some u0 -> User._id u = User._id u0 ->
  exists l1 l2, c = l1 ++ u0 :: l2 /\
    ((u = u0 /\ Users.save now u c = inr c) \/
     Users.save now u c = inr (l1 ++ stamped now u :: l2)).
Proof.
  intros Hids Hf Hid.
  destruct (find_split _ _ _ Hf) as [l1 [l2 [-> _]]].
  exists l1, l2. split; [reflexivity|].
  destruct (User_eq_dec u u0) as [->|Hne].
  - left. split; [reflexivity|]. apply save_unmodified. exact Hids.
  - right. apply save_modified; assumption.
Qed.

(** A save that leaves [_id] and [email] alone keeps the keys. *)
Lemma save_keys now (q : User -> bool) (c : Collection) (u0 u : User) :
  unique_ids c -> find q c = Some u0 ->
  User._id u = User._id u0 -> User.email u = User.email u0 ->
  exists c', Users.save now u c = inr c' /\
    map User._id c' = map User._id c /\ map User.email c' = map User.email c.
Proof.
  intros Hids Hf Hid Hem.
  destruct (save_found now q c u0 u Hids Hf Hid) as [l1 [l2 [-> [[_ Hs]|Hs]]]];
    rewrite Hs; eexists; split; try reflexivity; split; try reflexivity.
  - rewrite !map_app. simpl. rewrite Hid. reflexivity.
  - rewrite !map_app. simpl. rewrite Hem. reflexivity.
Qed.

Lemma save_well_formed now (q : User -> bool) (c : Collection) (u0 u : User) :
  well_formed c -> find q c = Some u0 ->
  User._id u = User._id u0 -> User.email u = User.email u0 ->
  exists c', Users.save now u c = inr c' /\ well_formed c'.
Proof.
  intros [Hids Hem] Hf Hid He.
  destruct (save_keys now q c u0 u Hids Hf Hid He) as [c' [Hs [Hi He']]].
  exists c'. split; [exact Hs|].
  unfold well_formed, unique_ids, unique_emails. rewrite Hi, He'. tauto.
Qed.

Lemma create_well_formed now f (c c' : Collection) u :
  well_formed c -> Users.create now f c = inr (c', u) -> well_formed c'.
Proof.
  intros [Hids Hem] Hc. split.
  - exact (create_unique_ids _ _ _ _ _ Hids Hc).
  - exact (create_unique_emails _ _ _ _ _ Hem Hc).
Qed.

Lemma verify_email_well_formed (c : Collection) env token :
  well_formed c -> well_formed (fst (ServerClean.get_verify_email c env token)).
Proof.
  intros Hwf. unfold ServerClean.get_verify_email.
  destruct (present token) as [t|]; [|exact Hwf].
  destruct (Users.findOne _ c) as [u0|] eqn:Hf; [|exact Hwf].
  destruct (save_well_formed (Date_now env) _ c u0 (verified u0) Hwf Hf
              eq_refl eq_refl) as [c' [Hs Hwf']].
  unfold verified in Hs. rewrite Hs. exact Hwf'.
Qed.

Lemma clean_handle_well_formed (c : Collection) env r :
  well_formed c -> well_formed (fst (ServerClean.handle c env r)).
Proof.
  intros Hwf. destruct r as [fn e p ro|token|e|e p|]; simpl.
  - unfold ServerClean.post_register.
    destruct (present fn), (present e), (present p), (present ro);
      try exact Hwf.
    destruct (Users.findOne _ c); [exact Hwf|].
    destruct (Users.create _ _ c) as [err|[c' u]] eqn:Hc; [exact Hwf|].
    exact (create_well_formed _ _ _ _ _ Hwf Hc).
  - apply verify_email_well_formed. exact Hwf.
  - unfold ServerClean.post_resend_verification.
    destruct (present e) as [e'|]; [|exact Hwf].
    destruct (Users.findOne _ c) as [u0|] eqn:Hf; [|exact Hwf].
    destruct (User.isEmailVerified u0); [exact Hwf|].
    match goal with
    | |- context [Users.save ?n ?u c] =>
        destruct (save_well_formed n _ c u0 u Hwf Hf eq_refl eq_refl)
          as [c' [Hs Hwf']]
    end.
    rewrite Hs. exact Hwf'.
  - unfold ServerClean.post_login.
    destruct (present e), (present p); try exact Hwf.
    destruct (Users.findOne _ c) as [u0|]; [|exact Hwf].
    destruct (negb (User.isEmailVerified u0)); [exact Hwf|].
    destruct (negb _); exact Hwf.
  - exact Hwf.
Qed.

Lemma server_handle_well_formed (c : Collection) env r :
  well_formed c -> well_formed (fst (Server.handle c env r)).
Proof.
  intros Hwf. destruct r as [fn e p ro|token|e|e p|]; simpl.
  - unfold Server.post_register.
    destruct (present fn), (present e), (present p), (present ro);
      try exact Hwf.
    destruct (Users.findOne _ c); [exact Hwf|].
    destruct (Users.create _ _ c) as [err|[c' u]] eqn:Hc; [exact Hwf|].
    exact (create_well_formed _ _ _ _ _ Hwf Hc).
  - rewrite verify_email_same. apply verify_email_well_formed. exact Hwf.
  - unfold Server.post_resend_verification.
    destruct (present e) as [e'|]; [|exact Hwf].
    destruct (Users.findOne _ c) as [u0|]; [|exact Hwf].
    destruct (emailService.success _); exact Hwf.
  - unfold Server.post_login.
    destruct (present e), (present p); try exact Hwf.
    destruct (Users.findOne _ c) as [u0|]; [|exact Hwf].
    destruct (negb _); exact Hwf.
  - exact Hwf.
Qed.

(** Every collection the servers reach from the empty one is well formed. *)
Lemma clean_run_well_formed rs : forall c : Collection,
  well_formed c -> well_formed (ServerClean.run c rs).
Proof.
  induction rs as [|[env r] rs IH]; simpl; intros c Hwf; [exact Hwf|].
  apply IH. apply clean_handle_well_formed. exact Hwf.
Qed.

Lemma server_run_well_formed rs : forall c : Collection,
  well_formed c -> well_formed (Server.run c rs).
Proof.
  induction rs as [|[env r] rs IH]; simpl; intros c Hwf; [exact Hwf|].
  apply IH. apply server_handle_well_formed. exact Hwf.
Qed.

Lemma empty_well_formed : well_formed [].
Proof. split; constructor. Qed.

End Invariants.

Section TokenAbsence.
Context `{Bcrypt}.

Lemma create_token_absent t now f (c c' : Collection) u :
  token_absent t c -> Users.f_emailVerificationToken f <> Some t ->
  Users.create now f c = inr (c', u) -> token_absent t c'.
Proof.
  intros Habs Hne Hc. apply create_inr in Hc. destruct Hc as [-> [-> _]].
  intros x Hx. apply in_app_or in Hx. destruct Hx as [Hx|[<-|[]]].
  - exact (Habs x Hx).
  - exact Hne.
Qed.

Lemma save_token_absent t now (u : User) (c c' : Collection) :
  token_absent t c -> User.emailVerificationToken u <> Some t ->
  Users.save now u c = inr c' -> token_absent t c'.
Proof.
  intros Habs Hne Hs x Hx.
  destruct (in_save _ _ _ _ _ Hs Hx) as [Hin| ->].
  - exact (Habs x Hin).
  - exact Hne.
Qed.

Lemma verify_email_token_absent t (c : Collection) env token :
  token_absent t c ->
  token_absent t (fst (ServerClean.get_verify_email c env token)).
Proof.
  intros Habs. unfold ServerClean.get_verify_email.
  destruct (present token) as [t'|]; [|exact Habs].
  destruct (Users.findOne _ c) as [u0|]; [|exact Habs].
  destruct (Users.save _ _ c) as [err|c'] eqn:Hs; [exact Habs|].
  simpl. apply (save_token_absent _ _ _ _ _ Habs) in Hs; [exact Hs|].
  simpl. discriminate.
Qed.

Lemma clean_handle_token_absent t (c : Collection) env r :
  token_absent t c -> new_token env <> t ->
  token_absent t (fst (ServerClean.handle c env r)).
Proof.
  intros Habs Hnew. destruct r as [fn e p ro|token|e|e p|]; simpl.
  - unfold ServerClean.post_register.
    destruct (present fn), (present e), (present p), (present ro);
      try exact Habs.
    destruct (Users.findOne _ c); [exact Habs|].
    destruct (Users.create _ _ c) as [err|[c' u]] eqn:Hc; [exact Habs|].
    simpl. apply (create_token_absent _ _ _ _ _ _ Habs) in Hc; [exact Hc|].
    simpl. congruence.
  - apply verify_email_token_absent. exact Habs.
  - unfold ServerClean.post_resend_verification.
    destruct (present e) as [e'|]; [|exact Habs].
    destruct (Users.findOne _ c) as [u0|]; [|exact Habs].
    destruct (User.isEmailVerified u0); [exact Habs|].
    destruct (Users.save _ _ c) as [err|c'] eqn:Hs; [exact Habs|].
    simpl. apply (save_token_absent _ _ _ _ _ Habs) in Hs; [exact Hs|].
    simpl. congruence.
  - unfold ServerClean.post_login.
    destruct (present e), (present p); try exact Habs.
    destruct (Users.findOne _ c) as [u0|]; [|exact Habs].
    destruct (negb (User.isEmailVerified u0)); [exact Habs|].
    destruct (negb _); exact Habs.
  - exact Habs.
Qed.

Lemma server_handle_token_absent t (c : Collection) env r :
  token_absent t c -> new_token env <> t ->
  token_absent t (fst (Server.handle c env r)).
Proof.
  intros Habs Hnew. destruct r as [fn e p ro|token|e|e p|]; simpl.
  - unfold Server.post_register.
    destruct (present fn), (present e), (present p), (present ro);
      try exact Habs.
    destruct (Users.findOne _ c); [exact Habs|].
    destruct (Users.create _ _ c) as [err|[c' u]] eqn:Hc; [exact Habs|].
    simpl. apply (create_token_absent _ _ _ _ _ _ Habs) in Hc; [exact Hc|].
    simpl. congruence.
  - rewrite verify_email_same. apply verify_email_token_absent. exact Habs.
  - unfold Server.post_resend_verification.
    destruct (present e) as [e'|]; [|exact Habs].
    destruct (Users.findOne _ c) as [u0|]; [|exact Habs].
    destruct (emailService.success _); exact Habs.
  - unfold Server.post_login.
    destruct (present e), (present p); try exact Habs.
    destruct (Users.findOne _ c) as [u0|]; [|exact Habs].
    destruct (negb _); exact Habs.
  - exact Habs.
Qed.

Lemma clean_run_token_absent t rs : forall c : Collection,
  token_absent t c -> draws_other t rs ->
  token_absent t (ServerClean.run c rs).
Proof.
  induction rs as [|[env r] rs IH]; simpl; intros c Habs Hrs; [exact Habs|].
  inversion Hrs as [|x l Hx Hl]; subst. simpl in Hx.
  apply IH; [|exact Hl]. apply clean_handle_token_absent; assumption.
Qed.

Lemma server_run_token_absent t rs : forall c : Collection,
  token_absent t c -> draws_other t rs ->
  token_absent t (Server.run c rs).
Proof.
  induction rs as [|[env r] rs IH]; simpl; intros c Habs Hrs; [exact Habs|].
  inversion Hrs as [|x l Hx Hl]; subst. simpl in Hx.
  apply IH; [|exact Hl]. apply server_handle_token_absent; assumption.
Qed.

End TokenAbsence.

(* ------------------------------------------------------------------ *)
(** ** POST /register *)

Section Register.
Context `{Bcrypt}.

Lemma find_app_none (q : User -> bool) (l1 l2 : Collection) :
  find q l1 = None -> find q (l1 ++ l2) = find q l2.
Proof.
  induction l1 as [|d l1 IH]; simpl; [reflexivity|].
  destruct (q d); [discriminate|exact IH].
Qed.

Lemma accounts_with_app e (l1 l2 : Collection) :
  accounts_with e (l1 ++ l2) = (accounts_with e l1 + accounts_with e l2)%nat.
Proof.
  unfold accounts_with. rewrite filter_app. apply List.length_app.
Qed.

(** A complete request for an address that is not stored is answered 201
    and appends the account. *)
Lemma clean_register_ok (c : Collection) env fn e pw ro :
  fn <> ""%string -> e <> ""%string -> pw <> ""%string -> ro <> ""%string ->
  Users.findOne (Users.by_email e) c = None ->
  let u := created (Date_now env) (clean_fields env fn e pw ro) c in
  ServerClean.post_register c env (Some fn) (Some e) (Some pw) (Some ro)
  = (c ++ [u], clean_registered env u).
Proof.
  intros Hfn He Hpw Hro Hf u. unfold ServerClean.post_register.
  rewrite !present_string by assumption. rewrite Hf.
  fold (clean_fields env fn e pw ro).
  rewrite create_ok; simpl; auto using bcrypt_hash_nonempty.
Qed.

Lemma server_register_ok (c : Collection) env fn e pw ro :
  fn <> ""%string -> e <> ""%string -> pw <> ""%string -> ro <> ""%string ->
  Users.findOne (Users.by_email e) c = None ->
  let u := created (Date_now env) (server_fields env fn e pw ro) c in
  Server.post_register c env (Some fn) (Some e) (Some pw) (Some ro)
  = (c ++ [u], server_registered u).
Proof.
  intros Hfn He Hpw Hro Hf u. unfold Server.post_register.
  rewrite !present_string by assumption. rewrite Hf.
  fold (server_fields env fn e pw ro).
  rewrite create_ok; simpl; auto using bcrypt_hash_nonempty.
Qed.

(** A complete request for a stored address is refused. *)
Lemma clean_register_taken (c : Collection) env fn e pw ro u :
  fn <> ""%string -> e <> ""%string -> pw <> ""%string -> ro <> ""%string ->
  Users.findOne (Users.by_email e) c = Some u ->
  ServerClean.post_register c env (Some fn) (Some e) (Some pw) (Some ro)
  = (c, email_exists).
Proof.
  intros Hfn He Hpw Hro Hf. unfold ServerClean.post_register.
  rewrite !present_string by assumption. rewrite Hf. reflexivity.
Qed.

Lemma server_register_taken (c : Collection) env fn e pw ro u :
  fn <> ""%string -> e <> ""%string -> pw <> ""%string -> ro <> ""%string ->
  Users.findOne (Users.by_email e) c = Some u ->
  Server.post_register c env (Some fn) (Some e) (Some pw) (Some ro)
  = (c, email_exists).
Proof.
  intros Hfn He Hpw Hro Hf. unfold Server.post_register.
  rewrite !present_string by assumption. rewrite Hf. reflexivity.
Qed.

Lemma findOne_appended e (c : Collection) (u : User) :
  Users.findOne (Users.by_email e) c = None -> User.email u = e ->
  Users.findOne (Users.by_email e) (c ++ [u]) = Some u.
Proof.
  intros Hf He. unfold Users.findOne in *. rewrite find_app_none by exact Hf.
  simpl. unfold Users.by_email. rewrite He, String.eqb_refl. reflexivity.
Qed.

Lemma appended_once e (c : Collection) (u : User) :
  Users.findOne (Users.by_email e) c = None -> User.email u = e ->
  accounts_with e (c ++ [u]) = 1%nat.
Proof.
  intros Hf He. rewrite accounts_with_app, (findOne_email_None_count _ _ Hf).
  unfold accounts_with. simpl. unfold Users.by_email.
  rewrite He, String.eqb_refl. reflexivity.
Qed.

Lemma appended_unique_emails e (c : Collection) (u : User) :
  unique_emails c -> Users.findOne (Users.by_email e) c = None ->
  User.email u = e -> unique_emails (c ++ [u]).
Proof.
  intros Hc Hf He. unfold unique_emails in *. rewrite map_app. simpl.
  apply NoDup_app; [exact Hc|repeat constructor; simpl; tauto|].
  intros a Hin [<-|[]]. rewrite He in Hin.
  exact (findOne_email_None_notin _ _ Hf Hin).
Qed.

(** C1: two register requests with the same e-mail address, served one
    after the other, each with all four fields, the address not stored
    before: the first is answered 201 and appends exactly one account with
    that address, the second is answered 400 "Email already exists" and
    stores nothing; e-mail addresses stay unique.  Holds for both
    servers. *)
Theorem register_same_email_twice (c : Collection) env1 env2
    e fn1 pw1 ro1 fn2 pw2 ro2 :
  unique_emails c ->
  Users.findOne (Users.by_email e) c = None ->
  e <> ""%string ->
  fn1 <> ""%string -> pw1 <> ""%string -> ro1 <> ""%string ->
  fn2 <> ""%string -> pw2 <> ""%string -> ro2 <> ""%string ->
  registers_once ServerClean.post_register c env1 env2 e fn1 pw1 ro1 fn2 pw2 ro2
  /\
  registers_once Server.post_register c env1 env2 e fn1 pw1 ro1 fn2 pw2 ro2.
Proof.
  intros Hc Hf He Hfn1 Hpw1 Hro1 Hfn2 Hpw2 Hro2. split.
  - set (u := created (Date_now env1) (clean_fields env1 fn1 e pw1 ro1) c).
    exists u, (clean_registered env1 u).
    assert (Hu : User.email u = e) by reflexivity.
    split; [apply clean_register_ok; assumption|].
    split; [reflexivity|]. split; [exact Hu|].
    split; [apply appended_once; assumption|].
    split; [apply (appended_unique_emails e); assumption|].
    apply (clean_register_taken _ _ _ _ _ _ u); try assumption.
    apply findOne_appended; assumption.
  - set (u := created (Date_now env1) (server_fields env1 fn1 e pw1 ro1) c).
    exists u, (server_registered u).
    assert (Hu : User.email u = e) by reflexivity.
    split; [apply server_register_ok; assumption|].
    split; [reflexivity|]. split; [exact Hu|].
    split; [apply appended_once; assumption|].
    split; [apply (appended_unique_emails e); assumption|].
    apply (server_register_taken _ _ _ _ _ _ u); try assumption.
    apply findOne_appended; assumption.
Qed.

End Register.

Lemma register_same_email_twice_witness :
  registers_once (@ServerClean.post_register Sample.bcrypt) []
    (Sample.env 1000 xab true) (Sample.env 2000 xcd true)
    "jane@x.com" "Jane Doe" "secret123" "player" "Jane D." "hunter22" "coach"
  /\
  registers_once (@Server.post_register Sample.bcrypt) []
    (Sample.env 1000 xab true) (Sample.env 2000 xcd true)
    "jane@x.com" "Jane Doe" "secret123" "player" "Jane D." "hunter22" "coach".
Proof.
  apply (@register_same_email_twice Sample.bcrypt);
    [constructor | reflexivity | discriminate ..].
Defined.

(* ------------------------------------------------------------------ *)
(** ** The verification token *)

Section Token.
Context `{Bcrypt}.

Lemma clean_consumed_once (c : Collection) env t :
  unique_ids c -> token_unique t c ->
  consumed_once ServerClean.get_verify_email ServerClean.run c env t.
Proof.
  intros Hids Huniq c' r Hrun Hst. split.
  - destruct (verify_200 _ _ _ _ _ Hrun Hst) as [t' [u0 [[= <-] [_ Hf]]]].
    apply find_some in Hf. destruct Hf as [Hin Hq].
    destruct (valid_token_fields _ _ _ Hq) as [Ht [e [He Hlt]]].
    exists u0, e. auto.
  - intros rs env' Hrs.
    destruct (verify_200 _ _ _ _ _ Hrun Hst) as [t' [u0 [[= <-] [Ht _]]]].
    apply verify_unmatched; [exact Ht|].
    apply token_absent_unmatched.
    apply clean_run_token_absent; [|exact Hrs].
    exact (consumed_token_absent _ _ _ _ _ Hids Huniq Hrun Hst).
Qed.

Lemma server_consumed_once (c : Collection) env t :
  unique_ids c -> token_unique t c ->
  consumed_once Server.get_verify_email Server.run c env t.
Proof.
  intros Hids Huniq c' r Hrun Hst. rewrite verify_email_same in Hrun. split.
  - destruct (verify_200 _ _ _ _ _ Hrun Hst) as [t' [u0 [[= <-] [_ Hf]]]].
    apply find_some in Hf. destruct Hf as [Hin Hq].
    destruct (valid_token_fields _ _ _ Hq) as [Ht [e [He Hlt]]].
    exists u0, e. auto.
  - intros rs env' Hrs. rewrite verify_email_same.
    destruct (verify_200 _ _ _ _ _ Hrun Hst) as [t' [u0 [[= <-] [Ht _]]]].
    apply verify_unmatched; [exact Ht|].
    apply token_absent_unmatched.
    apply server_run_token_absent; [|exact Hrs].
    exact (consumed_token_absent _ _ _ _ _ Hids Huniq Hrun Hst).
Qed.

(** C4: on a collection with unique ids in which at most one document
    carries the token, a GET /verify-email with that token is answered 200
    only when the clock of the request is strictly before the stored
    expiry, and after one 200 answer every later GET /verify-email with the
    same token is answered 400 "Invalid or expired verification token" and
    writes nothing, whatever requests are served in between, as long as
    the random source does not draw the same token again.  Holds for both
    servers. *)
Theorem verification_token_single_use (c : Collection) env t :
  unique_ids c -> token_unique t c ->
  consumed_once ServerClean.get_verify_email ServerClean.run c env t /\
  consumed_once Server.get_verify_email Server.run c env t.
Proof.
  intros Hids Huniq. split.
  - apply clean_consumed_once; assumption.
  - apply server_consumed_once; assumption.
Qed.

(** C5: a GET /verify-email whose token is carried by no document, or only
    by documents whose expiry is not after the clock of the request, is
    answered 400 "Invalid or expired verification token" and leaves the
    collection as it was.  Holds for both servers. *)
Theorem unknown_or_expired_token_rejected (c : Collection) env t :
  t <> ""%string ->
  (forall u, In u c -> User.emailVerificationToken u = Some t ->
     forall e, User.emailVerificationExpires u = Some e -> e <= Date_now env) ->
  ServerClean.get_verify_email c env (Some t) = (c, invalid_or_expired) /\
  Server.get_verify_email c env (Some t) = (c, invalid_or_expired).
Proof.
  intros Ht Hexp.
  assert (Hf : Users.findOne (Users.by_valid_token t (Date_now env)) c = None).
  { unfold Users.findOne. destruct (find _ c) as [u|] eqn:Hf; [|reflexivity].
    apply find_some in Hf. destruct Hf as [Hin Hq].
    destruct (valid_token_fields _ _ _ Hq) as [Htok [e [He Hlt]]].
    specialize (Hexp u Hin Htok e He). lia. }
  split; [|rewrite verify_email_same]; apply verify_unmatched; assumption.
Qed.

Lemma clean_clears_consumed (c : Collection) env token :
  unique_ids c -> clears_consumed ServerClean.get_verify_email c env token.
Proof.
  intros Hids c' r Hrun. split.
  - intros Hst.
    destruct (verify_200 _ _ _ _ _ Hrun Hst) as [t [u0 [-> [Ht Hf]]]].
    destruct (verify_matched c env t u0 Ht Hids Hf) as [l1 [l2 [Hc Heq]]].
    rewrite Heq in Hrun. injection Hrun as <- _.
    apply find_some in Hf. destruct Hf as [_ Hq].
    destruct (valid_token_fields _ _ _ Hq) as [Htok _].
    exists l1, u0, l2, (stamped (Date_now env) (verified u0)).
    repeat split; auto.
  - revert Hrun. unfold ServerClean.get_verify_email.
    destruct (present token) as [t|]; [|intros [= <- _] _; reflexivity].
    destruct (Users.findOne _ c) as [u0|]; [|intros [= <- _] _; reflexivity].
    destruct (Users.save _ _ c) as [err|c1].
    + intros [= <- _] _; reflexivity.
    + intros [= _ <-] Hst. exfalso. apply Hst. reflexivity.
Qed.

(** C7 (as amended): on a collection with unique ids, a GET /verify-email
    that is answered 200 rewrites the one document it matched, whose two
    token fields are null afterwards, and leaves every other document as
    it was; a GET /verify-email with any other answer writes nothing, so
    that a token whose expiry has passed stays in its document.  Holds for
    both servers. *)
Theorem consumed_token_cleared (c : Collection) env token :
  unique_ids c ->
  clears_consumed ServerClean.get_verify_email c env token /\
  clears_consumed Server.get_verify_email c env token.
Proof.
  intros Hids. split.
  - apply clean_clears_consumed. exact Hids.
  - intros c' r Hrun. rewrite verify_email_same in Hrun.
    exact (clean_clears_consumed c env token Hids c' r Hrun).
Qed.

End Token.

Lemma sample_unique_ids : unique_ids Sample.clean_after_register.
Proof. repeat constructor. intros []. Qed.

Lemma sample_token_unique :
  token_unique Sample.jane_token Sample.clean_after_register.
Proof.
  intros u v [<-|[]] [<-|[]] _ _. reflexivity.
Qed.

Lemma verification_token_single_use_witness :
  exists c' r,
    ServerClean.get_verify_email Sample.clean_after_register
      (Sample.env 2000 xab true) (Some Sample.jane_token) = (c', r) /\
    status r = 200 /\
    ServerClean.get_verify_email c' (Sample.env 3000 xab true)
      (Some Sample.jane_token) = (c', invalid_or_expired).
Proof.
  eexists. eexists. split; [reflexivity|]. split; [reflexivity|].
  destruct (@verification_token_single_use Sample.bcrypt
              Sample.clean_after_register (Sample.env 2000 xab true)
              Sample.jane_token sample_unique_ids sample_token_unique)
    as [Hclean _].
  destruct (Hclean _ _ eq_refl eq_refl) as [_ Hlater].
  exact (Hlater [] (Sample.env 3000 xab true) (Forall_nil _)).
Defined.

Lemma unknown_or_expired_token_rejected_witness :
  ServerClean.get_verify_email Sample.clean_after_register
    (Sample.env (1000 + day_ms) xab true) (Some Sample.jane_token)
  = (Sample.clean_after_register, invalid_or_expired) /\
  Server.get_verify_email Sample.clean_after_register
    (Sample.env (1000 + day_ms) xab true) (Some Sample.jane_token)
  = (Sample.clean_after_register, invalid_or_expired).
Proof.
  apply unknown_or_expired_token_rejected.
  - discriminate.
  - intros u [<-|[]] _ e [= <-]. vm_compute. discriminate.
Defined.

Lemma consumed_token_cleared_witness :
  clears_consumed ServerClean.get_verify_email Sample.clean_after_register
    (Sample.env 2000 xab true) (Some Sample.jane_token) /\
  clears_consumed Server.get_verify_email Sample.clean_after_register
    (Sample.env 2000 xab true) (Some Sample.jane_token).
Proof.
  apply consumed_token_cleared. exact sample_unique_ids.
Defined.

(** C7, the claim as written fails: Jane registers at time 1000, her token
    expires at 1000 + 24 h; one millisecond later, and after a GET
    /verify-email that was refused, her document still carries the token
    and the expiry. *)
Lemma expired_token_retained :
  let late := Sample.env (1000 + day_ms + 1) xab true in
  let c := fst (ServerClean.get_verify_email Sample.clean_after_register
                  late (Some Sample.jane_token)) in
  exists u e,
    In u c /\
    User.emailVerificationExpires u = Some e /\ e < Date_now late /\
    User.emailVerificationToken u = Some Sample.jane_token.
Proof.
  eexists. exists (1000 + day_ms). split; [left; reflexivity|].
  split; [reflexivity|]. split; reflexivity.
Qed.

(* ------------------------------------------------------------------ *)
(** ** POST /login *)

Section Login.
Context `{Bcrypt}.

Lemma clean_login_unknown (c : Collection) env e p :
  e <> ""%string -> p <> ""%string ->
  Users.findOne (Users.by_email e) c = None ->
  ServerClean.post_login c env (Some e) (Some p) = (c, invalid_credentials).
Proof.
  intros He Hp Hf. unfold ServerClean.post_login.
  rewrite !present_string by assumption. rewrite Hf. reflexivity.
Qed.

Lemma clean_login_wrong_password (c : Collection) env e p u :
  e <> ""%string -> p <> ""%string ->
  Users.findOne (Users.by_email e) c = Some u ->
  User.isEmailVerified u = true ->
  bcrypt_compare p (User.password u) = false ->
  ServerClean.post_login c env (Some e) (Some p) = (c, invalid_credentials).
Proof.
  intros He Hp Hf Hv Hcmp. unfold ServerClean.post_login.
  rewrite !present_string by assumption. rewrite Hf, Hv, Hcmp. reflexivity.
Qed.

Lemma server_login_unknown (c : Collection) env e p :
  e <> ""%string -> p <> ""%string ->
  Users.findOne (Users.by_email e) c = None ->
  Server.post_login c env (Some e) (Some p) = (c, invalid_credentials).
Proof.
  intros He Hp Hf. unfold Server.post_login.
  rewrite !present_string by assumption. rewrite Hf. reflexivity.
Qed.

Lemma server_login_wrong_password (c : Collection) env e p u :
  e <> ""%string -> p <> ""%string ->
  Users.findOne (Users.by_email e) c = Some u ->
  bcrypt_compare p (User.password u) = false ->
  Server.post_login c env (Some e) (Some p) = (c, invalid_credentials).
Proof.
  intros He Hp Hf Hcmp. unfold Server.post_login.
  rewrite !present_string by assumption. rewrite Hf, Hcmp. reflexivity.
Qed.

Lemma clean_login_unverified (c : Collection) env e p u :
  e <> ""%string -> p <> ""%string ->
  Users.findOne (Users.by_email e) c = Some u ->
  User.isEmailVerified u = false ->
  ServerClean.post_login c env (Some e) (Some p) = (c, email_not_verified).
Proof.
  intros He Hp Hf Hv. unfold ServerClean.post_login.
  rewrite !present_string by assumption. rewrite Hf, Hv. reflexivity.
Qed.

(** C2 (as amended): in the second server a login for an address that
    matches no account (attempt 1) and a login for a stored account whose
    hash [bcrypt.compare] rejects for the password (attempt 2) get the same
    answer, 401 with the one field message "Invalid email or password",
    and write nothing.  In server-clean.js the same holds when the stored
    account is verified; for a stored account that is not verified the
    login is answered 401 "Please verify your email before logging in"
    with emailVerified false, whatever the password: the password is not
    checked, and the answer differs from the one for an unknown address. *)
Theorem login_failures_indistinguishable
    (c1 c2 : Collection) env1 env2 e1 p1 e2 p2 u :
  e1 <> ""%string -> p1 <> ""%string -> e2 <> ""%string -> p2 <> ""%string ->
  Users.findOne (Users.by_email e1) c1 = None ->
  Users.findOne (Users.by_email e2) c2 = Some u ->
  (Server.post_login c1 env1 (Some e1) (Some p1) = (c1, invalid_credentials) /\
   (bcrypt_compare p2 (User.password u) = false ->
    Server.post_login c2 env2 (Some e2) (Some p2) = (c2, invalid_credentials)))
  /\
  (ServerClean.post_login c1 env1 (Some e1) (Some p1) = (c1, invalid_credentials) /\
   (User.isEmailVerified u = true ->
    bcrypt_compare p2 (User.password u) = false ->
    ServerClean.post_login c2 env2 (Some e2) (Some p2) = (c2, invalid_credentials)) /\
   (User.isEmailVerified u = false ->
    ServerClean.post_login c2 env2 (Some e2) (Some p2) = (c2, email_not_verified)) /\
   email_not_verified <> invalid_credentials).
Proof.
  intros He1 Hp1 He2 Hp2 Hnone Hsome. repeat split.
  - apply server_login_unknown; assumption.
  - intros Hcmp. apply (server_login_wrong_password _ _ _ _ u); assumption.
  - apply clean_login_unknown; assumption.
  - intros Hv Hcmp. apply (clean_login_wrong_password _ _ _ _ u); assumption.
  - intros Hv. apply (clean_login_unverified _ _ _ _ u); assumption.
  - discriminate.
Qed.

End Login.

Lemma login_failures_indistinguishable_witness :
  let c := Sample.server_after_register in
  let env := Sample.env 2000 xab true in
  (@Server.post_login Sample.bcrypt c env (Some "joe@x.com"%string)
     (Some "secret123"%string) = (c, invalid_credentials) /\
   @Server.post_login Sample.bcrypt c env Sample.jane
     (Some "wrong"%string) = (c, invalid_credentials)) /\
  (@ServerClean.post_login Sample.bcrypt c env (Some "joe@x.com"%string)
     (Some "secret123"%string) = (c, invalid_credentials) /\
   @ServerClean.post_login Sample.bcrypt c env Sample.jane
     (Some "wrong"%string) = (c, invalid_credentials)) /\
  @ServerClean.post_login Sample.bcrypt Sample.clean_after_register env
    Sample.jane (Some "secret123"%string)
  = (Sample.clean_after_register, email_not_verified).
Proof.
  intros c env.
  destruct (@login_failures_indistinguishable Sample.bcrypt c c env env
              "joe@x.com" "secret123" "jane@x.com" "wrong"
              (created 1000
                 (@server_fields Sample.bcrypt (Sample.env 1000 xab true)
                    "Jane Doe" "jane@x.com" "secret123" "player") []))
    as [[Hs1 Hs2] [Hc1 [Hc2 _]]];
    [discriminate | discriminate | discriminate | discriminate
    | reflexivity | reflexivity |].
  destruct (@login_failures_indistinguishable Sample.bcrypt c
              Sample.clean_after_register env env
              "joe@x.com" "secret123" "jane@x.com" "secret123"
              (created 1000
                 (@clean_fields Sample.bcrypt (Sample.env 1000 xab true)
                    "Jane Doe" "jane@x.com" "secret123" "player") []))
    as [_ [_ [_ [Hgate _]]]];
    [discriminate | discriminate | discriminate | discriminate
    | reflexivity | reflexivity |].
  split; [split; [exact Hs1|apply Hs2; reflexivity]|].
  split; [split; [exact Hc1|apply Hc2; reflexivity]|].
  apply Hgate. reflexivity.
Defined.

(** C2, the claim as written fails for server-clean.js: Jane is registered
    and not verified, Joe is not registered.  A login for Joe is answered
    "Invalid email or password"; a login for Jane with a password that
    does not verify against her stored hash is answered "Please verify
    your email before logging in": the two answers differ and tell that
    Jane's account exists. *)
Lemma unverified_login_reveals_account :
  let c := Sample.clean_after_register in
  let env := Sample.env 2000 xab true in
  Users.findOne (Users.by_email "joe@x.com") c = None /\
  (exists u, Users.findOne (Users.by_email "jane@x.com") c = Some u /\
             @bcrypt_compare Sample.bcrypt "wrong" (User.password u) = false) /\
  snd (@ServerClean.post_login Sample.bcrypt c env (Some "joe@x.com"%string)
         (Some "wrong"%string)) = invalid_credentials /\
  snd (@ServerClean.post_login Sample.bcrypt c env Sample.jane
         (Some "wrong"%string)) = email_not_verified /\
  snd (@ServerClean.post_login Sample.bcrypt c env Sample.jane
         (Some "wrong"%string))
  <> snd (@ServerClean.post_login Sample.bcrypt c env
            (Some "joe@x.com"%string) (Some "wrong"%string)).
Proof.
  intros c env. split; [reflexivity|].
  split; [eexists; split; reflexivity|].
  split; [reflexivity|]. split; [reflexivity|].
  vm_compute. discriminate.
Qed.

(* ------------------------------------------------------------------ *)
(** ** The e-mail service and the answers *)

Section Notifier.
Context `{Bcrypt}.

Lemma server_resend_found (c : Collection) env e u :
  e <> ""%string ->
  Users.findOne (Users.by_email e) c = Some u ->
  Server.post_resend_verification c env (Some e)
  = (c, if emailService.success (sendWelcomeEmail env e (User.fullname u))
        then welcome_sent else welcome_failed).
Proof.
  intros He Hf. unfold Server.post_resend_verification.
  rewrite (present_string e He), Hf.
  destruct (emailService.success _); reflexivity.
Qed.

(** C3 (as amended): whatever the e-mail service reports, the answer and
    the collection of POST /register and GET /verify-email of the second
    server are the same, and so are those of every request to
    server-clean.js, which calls no e-mail service; POST
    /resend-verification of the second server, for a stored address,
    answers 200 when the service reports success and 500 "Failed to send
    welcome email. Please try again later." when it reports failure. *)
Theorem notifier_failure_confined_to_resend (c : Collection) env m :
  (forall fn e pw ro,
     Server.post_register c (with_mail env m) fn e pw ro
     = Server.post_register c env fn e pw ro) /\
  (forall token,
     Server.get_verify_email c (with_mail env m) token
     = Server.get_verify_email c env token) /\
  (forall r, ServerClean.handle c (with_mail env m) r = ServerClean.handle c env r) /\
  (forall e u,
     e <> ""%string -> Users.findOne (Users.by_email e) c = Some u ->
     Server.post_resend_verification c env (Some e)
     = (c, if emailService.success (sendWelcomeEmail env e (User.fullname u))
           then welcome_sent else welcome_failed)).
Proof.
  split; [|split; [|split]].
  - reflexivity.
  - reflexivity.
  - intros r. destruct r; reflexivity.
  - intros e u. apply server_resend_found.
Qed.

End Notifier.

Lemma notifier_failure_confined_to_resend_witness :
  Server.post_resend_verification Sample.server_after_register
    (Sample.env 2000 xab false) Sample.jane
  = (Sample.server_after_register, welcome_failed).
Proof.
  destruct (@notifier_failure_confined_to_resend Sample.bcrypt
              Sample.server_after_register (Sample.env 2000 xab false)
              (Sample.mail true)) as [_ [_ [_ Hresend]]].
  refine (Hresend "jane@x.com"%string _ _ eq_refl); discriminate.
Defined.

(** C3, the claim as written fails: Jane is registered with the second
    server; her POST /resend-verification is answered 200 when the e-mail
    service reports success and 500 when it reports failure, everything
    else being equal. *)
Lemma resend_fails_with_notifier :
  snd (Server.post_resend_verification Sample.server_after_register
         (Sample.env 2000 xab true) Sample.jane) = welcome_sent /\
  status welcome_sent = 200 /\
  snd (Server.post_resend_verification Sample.server_after_register
         (Sample.env 2000 xab false) Sample.jane) = welcome_failed /\
  status welcome_failed = 500.
Proof. repeat split. Qed.

(* ------------------------------------------------------------------ *)
(** ** The fields of the answers *)

Section Answers.
Context `{Bcrypt}.









End Answers.



(* ------------------------------------------------------------------ *)
(** ** The second server: registration verifies, the token stays *)

Section AutoVerified.
Context `{Bcrypt}.

Lemma new_token_nonempty env : new_token env <> ""%string.
Proof. unfold new_token, randomBytes. simpl. discriminate. Qed.

Lemma save_modified_at now (l1 l2 : Collection) (u0 u : User) :
  (forall d, In d l1 -> User._id d <> User._id u0) ->
  User._id u = User._id u0 -> u <> u0 ->
  Users.save now u (l1 ++ u0 :: l2) = inr (l1 ++ stamped now u :: l2).
Proof.
  intros Hl1 Hid Hne. unfold Users.save. rewrite Hid.
  rewrite findOne_by_id_split by exact Hl1.
  destruct (User_eq_dec u0 u) as [Heq|_]; [congruence|].
  rewrite replace_split by exact Hl1.
  unfold stamped. rewrite Hid. reflexivity.
Qed.

(** C10: in the second server a complete registration for a new address
    stores an account that is verified already and carries the token drawn
    and its expiry, 24 hours after the clock of the request; a GET
    /verify-email with that token before the expiry (no other document
    carrying the token) matches this account, rewrites it with both token
    fields null, and is answered 200 with isVerified true. *)
Theorem auto_verified_token_still_consumed
    (c : Collection) env env2 fn e pw ro :
  fn <> ""%string -> e <> ""%string -> pw <> ""%string -> ro <> ""%string ->
  Users.findOne (Users.by_email e) c = None ->
  token_absent (new_token env) c ->
  Date_now env2 < Date_now env + day_ms ->
  let u := created (Date_now env) (server_fields env fn e pw ro) c in
  let u' := stamped (Date_now env2) (verified u) in
  Server.post_register c env (Some fn) (Some e) (Some pw) (Some ro)
  = (c ++ [u], server_registered u) /\
  User.isEmailVerified u = true /\
  User.emailVerificationToken u = Some (new_token env) /\
  User.emailVerificationExpires u = Some (Date_now env + day_ms) /\
  Server.get_verify_email (c ++ [u]) env2 (Some (new_token env))
  = (c ++ [u'], email_verified) /\
  User.emailVerificationToken u' = None /\
  User.emailVerificationExpires u' = None /\
  c ++ [u'] <> c ++ [u].
Proof.
  intros Hfn He Hpw Hro Hf Habs Hlt u u'.
  split; [apply server_register_ok; assumption|].
  split; [reflexivity|]. split; [reflexivity|]. split; [reflexivity|].
  split; [|split; [reflexivity|split; [reflexivity|]]].
  - rewrite verify_email_same. unfold ServerClean.get_verify_email.
    rewrite (present_string _ (new_token_nonempty env)).
    assert (Hfind : Users.findOne
                      (Users.by_valid_token (new_token env) (Date_now env2))
                      (c ++ [u]) = Some u).
    { unfold Users.findOne.
      rewrite find_app_none
        by (apply (token_absent_unmatched (new_token env)); exact Habs).
      assert (Hq : Users.by_valid_token (new_token env) (Date_now env2) u = true).
      { unfold Users.by_valid_token.
        change (User.emailVerificationToken u) with (Some (new_token env)).
        change (User.emailVerificationExpires u)
          with (Some (Date_now env + day_ms)).
        cbv beta iota. rewrite String.eqb_refl. apply Z.ltb_lt in Hlt. rewrite Hlt.
        reflexivity. }
      unfold find. rewrite Hq. reflexivity. }
    rewrite Hfind.
    change (set_emailVerificationExpires None
              (set_emailVerificationToken None (set_isEmailVerified true u)))
      with (verified u).
    rewrite (save_modified_at (Date_now env2) c [] u (verified u)).
    + reflexivity.
    + intros d Hd. exact (fresh_id_fresh c d Hd).
    + reflexivity.
    + apply (verified_changed (new_token env)). reflexivity.
  - intros Heq. apply app_inv_head in Heq. injection Heq as Heq.
    discriminate.
Qed.

End AutoVerified.

Lemma auto_verified_token_still_consumed_witness :
  Server.get_verify_email Sample.server_after_register
    (Sample.env 2000 xcd false) (Some Sample.jane_token)
  = ([stamped 2000
        (verified
           (created 1000
              (@server_fields Sample.bcrypt (Sample.env 1000 xab true)
                 "Jane Doe" "jane@x.com" "secret123" "player") []))],
     email_verified).
Proof.
  refine (proj1 (proj2 (proj2 (proj2 (proj2
            (@auto_verified_token_still_consumed Sample.bcrypt []
               (Sample.env 1000 xab true) (Sample.env 2000 xcd false)
               "Jane Doe" "jane@x.com" "secret123" "player"
               _ _ _ _ eq_refl _ eq_refl))))));
    try discriminate.
  intros u [].
Defined.

(* ------------------------------------------------------------------ *)
(** ** The length of fullname *)

(** C8, the code at a failing input: the schema writes [min: 2, max: 50]
    on the String path fullname, which Mongoose does not check on strings,
    and the handler tests only that the name is not empty; both servers
    answer 201 to a registration with the one-character name "A" and
    store the account. *)
Theorem short_fullname_registered :
  let env := Sample.env 1000 xab true in
  let name := "A"%string in
  (String.length name < 2)%nat /\
  (exists u,
     @ServerClean.post_register Sample.bcrypt [] env (Some name) Sample.jane
       (Some "secret123"%string) (Some "player"%string)
     = ([u], clean_registered env u) /\ User.fullname u = name) /\
  (exists u,
     @Server.post_register Sample.bcrypt [] env (Some name) Sample.jane
       (Some "secret123"%string) (Some "player"%string)
     = ([u], server_registered u) /\ User.fullname u = name).
Proof.
  intros env name. split; [repeat constructor|].
  split; eexists; split; reflexivity.
Qed.

(* ------------------------------------------------------------------ *)
(** ** The stored password *)

(** Both servers store what [bcrypt.hash] returned for the password of the
    request, with 10 rounds; the plaintext itself is not passed on. *)
Lemma stored_password_is_hash `{Bcrypt} (c c' : Collection) env fn e pw ro r :
  (ServerClean.post_register c env fn e (Some pw) ro = (c', r) \/
   Server.post_register c env fn e (Some pw) ro = (c', r)) ->
  status r = 201 ->
  exists u, c' = c ++ [u] /\
            User.password u = bcrypt_hash pw 10%nat (bcrypt_salt env).
Proof.
  intros [Hrun|Hrun] Hst; revert Hrun;
    [unfold ServerClean.post_register|unfold Server.post_register];
    destruct (present fn), (present e), (present (Some pw)) as [pw'|] eqn:Hpw,
             (present ro);
    try (intros [= _ <-]; discriminate).
  all: apply present_Some in Hpw; destruct Hpw as [[= <-] _].
  all: destruct (Users.findOne _ c); [intros [= _ <-]; discriminate|].
  all: destruct (Users.create _ _ c) as [err|[c1 u]] eqn:Hc;
    [intros [= _ <-]; discriminate|].
  all: intros [= <- _]; apply create_inr in Hc; destruct Hc as [-> [-> _]].
  all: eexists; split; reflexivity.
Qed.

(* ------------------------------------------------------------------ *)
(** ** Refused requests *)

Section Refusals.
Context `{Bcrypt}.

(** X1: a request that misses a required field, or carries it as the
    empty string, is answered 400 with the message of its route and
    writes nothing: the four fields of POST /register, the token of GET
    /verify-email, the address of POST /resend-verification, address and
    password of POST /login.  Holds for both servers. *)
Theorem missing_input_refused (c : Collection) env r :
  match r with
  | PostRegister fn e pw ro =>
      present fn = None \/ present e = None \/
      present pw = None \/ present ro = None
  | GetVerifyEmail token => present token = None
  | PostResendVerification e => present e = None
  | PostLogin e pw => present e = None \/ present pw = None
  | GetRoot => False
  end ->
  let answer :=
    match r with
    | PostRegister _ _ _ _ => all_fields_required
    | GetVerifyEmail _ => token_required
    | PostResendVerification _ => email_required
    | PostLogin _ _ => credentials_required
    | GetRoot => all_fields_required
    end in
  ServerClean.handle c env r = (c, answer) /\
  Server.handle c env r = (c, answer).
Proof.
  destruct r as [fn e pw ro|token|e|e pw|]; simpl.
  - unfold ServerClean.post_register, Server.post_register.
    intros [Hm|[Hm|[Hm|Hm]]]; rewrite Hm;
      destruct (present fn), (present e), (present pw), (present ro);
      split; reflexivity.
  - unfold ServerClean.get_verify_email, Server.get_verify_email.
    intros ->. split; reflexivity.
  - unfold ServerClean.post_resend_verification, Server.post_resend_verification.
    intros ->. split; reflexivity.
  - unfold ServerClean.post_login, Server.post_login.
    intros [Hm|Hm]; rewrite Hm; destruct (present e), (present pw);
      split; reflexivity.
  - intros [].
Qed.

Lemma clean_failure_writes_nothing (c c' : Collection) env r resp :
  ServerClean.handle c env r = (c', resp) ->
  status resp <> 200 -> status resp <> 201 -> c' = c.
Proof.
  destruct r as [fn e pw ro|token|e|e pw|]; simpl.
  - unfold ServerClean.post_register.
    destruct (present fn), (present e), (present pw), (present ro);
      try (intros [= <- _]; reflexivity).
    destruct (Users.findOne _ c); [intros [= <- _]; reflexivity|].
    destruct (Users.create _ _ c) as [err|[c1 u]];
      [intros [= <- _]; reflexivity|].
    intros [= _ <-] _ H201. exfalso. apply H201. reflexivity.
  - unfold ServerClean.get_verify_email.
    destruct (present token); [|intros [= <- _]; reflexivity].
    destruct (Users.findOne _ c); [|intros [= <- _]; reflexivity].
    destruct (Users.save _ _ c); [intros [= <- _]; reflexivity|].
    intros [= _ <-] H200. exfalso. apply H200. reflexivity.
  - unfold ServerClean.post_resend_verification.
    destruct (present e); [|intros [= <- _]; reflexivity].
    destruct (Users.findOne _ c) as [u|]; [|intros [= <- _]; reflexivity].
    destruct (User.isEmailVerified u); [intros [= <- _]; reflexivity|].
    destruct (Users.save _ _ c); [intros [= <- _]; reflexivity|].
    intros [= _ <-] H200. exfalso. apply H200. reflexivity.
  - unfold ServerClean.post_login.
    destruct (present e), (present pw); try (intros [= <- _]; reflexivity).
    destruct (Users.findOne _ c) as [u|]; [|intros [= <- _]; reflexivity].
    destruct (negb (User.isEmailVerified u)); [intros [= <- _]; reflexivity|].
    destruct (negb _); intros [= <- _]; reflexivity.
  - intros [= <- _]. reflexivity.
Qed.

Lemma server_failure_writes_nothing (c c' : Collection) env r resp :
  Server.handle c env r = (c', resp) ->
  status resp <> 200 -> status resp <> 201 -> c' = c.
Proof.
  destruct r as [fn e pw ro|token|e|e pw|]; simpl.
  - unfold Server.post_register.
    destruct (present fn), (present e), (present pw), (present ro);
      try (intros [= <- _]; reflexivity).
    destruct (Users.findOne _ c); [intros [= <- _]; reflexivity|].
    destruct (Users.create _ _ c) as [err|[c1 u]];
      [intros [= <- _]; reflexivity|].
    intros [= _ <-] _ H201. exfalso. apply H201. reflexivity.
  - intros Hrun. change (ServerClean.handle c env (GetVerifyEmail token) = (c', resp)) in Hrun.
    exact (clean_failure_writes_nothing _ _ _ _ _ Hrun).
  - unfold Server.post_resend_verification.
    destruct (present e); [|intros [= <- _]; reflexivity].
    destruct (Users.findOne _ c) as [u|]; [|intros [= <- _]; reflexivity].
    destruct (emailService.success _); intros [= <- _]; reflexivity.
  - unfold Server.post_login.
    destruct (present e), (present pw); try (intros [= <- _]; reflexivity).
    destruct (Users.findOne _ c) as [u|]; [|intros [= <- _]; reflexivity].
    destruct (negb _); intros [= <- _]; reflexivity.
  - intros [= <- _]. reflexivity.
Qed.

(** X2: a request that is answered with any status other than 200 and 201
    leaves the collection exactly as it was: no refusal and no 500 answer
    writes a part of its changes.  Holds for every request to both
    servers. *)
Theorem failed_requests_write_nothing (c : Collection) env r :
  (forall c' resp, ServerClean.handle c env r = (c', resp) ->
     status resp <> 200 -> status resp <> 201 -> c' = c) /\
  (forall c' resp, Server.handle c env r = (c', resp) ->
     status resp <> 200 -> status resp <> 201 -> c' = c).
Proof.
  split; intros c' resp.
  - apply clean_failure_writes_nothing.
  - apply server_failure_writes_nothing.
Qed.

Lemma clean_login_read_only (c : Collection) env e pw :
  fst (ServerClean.post_login c env e pw) = c.
Proof.
  unfold ServerClean.post_login.
  destruct (present e), (present pw); try reflexivity.
  destruct (Users.findOne _ c) as [u|]; [|reflexivity].
  destruct (negb (User.isEmailVerified u)); [reflexivity|].
  destruct (negb _); reflexivity.
Qed.

Lemma server_login_read_only (c : Collection) env e pw :
  fst (Server.post_login c env e pw) = c.
Proof.
  unfold Server.post_login.
  destruct (present e), (present pw); try reflexivity.
  destruct (Users.findOne _ c) as [u|]; [|reflexivity].
  destruct (negb _); reflexivity.
Qed.

Lemma server_resend_read_only (c : Collection) env e :
  fst (Server.post_resend_verification c env e) = c.
Proof.
  unfold Server.post_resend_verification.
  destruct (present e); [|reflexivity].
  destruct (Users.findOne _ c) as [u|]; [|reflexivity].
  destruct (emailService.success _); reflexivity.
Qed.

(** X3: POST /login of both servers, POST /resend-verification of the
    second server and GET / never write: whatever the request and the
    answer, the collection is the one they were given. *)
Theorem read_only_handlers (c : Collection) env e pw :
  fst (ServerClean.post_login c env e pw) = c /\
  fst (Server.post_login c env e pw) = c /\
  fst (Server.post_resend_verification c env e) = c /\
  fst (ServerClean.handle c env GetRoot) = c /\
  fst (Server.handle c env GetRoot) = c.
Proof.
  split; [apply clean_login_read_only|].
  split; [apply server_login_read_only|].
  split; [apply server_resend_read_only|].
  split; reflexivity.
Qed.

(** X4: POST /login is answered 200 only for a stored account whose hash
    [bcrypt.compare] accepts for the password of the request, and in
    server-clean.js only if that account is verified; the answer then
    carries id, fullname, email, role and isEmailVerified of that account
    and nothing else of it. *)
Theorem login_success_sound (c : Collection) env e pw :
  (status (snd (ServerClean.post_login c env e pw)) = 200 ->
   exists e' pw' u,
     e = Some e' /\ pw = Some pw' /\
     Users.findOne (Users.by_email e') c = Some u /\
     User.isEmailVerified u = true /\
     bcrypt_compare pw' (User.password u) = true /\
     snd (ServerClean.post_login c env e pw) = login_ok u) /\
  (status (snd (Server.post_login c env e pw)) = 200 ->
   exists e' pw' u,
     e = Some e' /\ pw = Some pw' /\
     Users.findOne (Users.by_email e') c = Some u /\
     bcrypt_compare pw' (User.password u) = true /\
     snd (Server.post_login c env e pw) = login_ok u).
Proof.
  split.
  - unfold ServerClean.post_login.
    destruct (present e) as [e'|] eqn:He; [|destruct (present pw); discriminate].
    destruct (present pw) as [pw'|] eqn:Hpw; [|discriminate].
    apply present_Some in He, Hpw. destruct He as [-> _], Hpw as [-> _].
    destruct (Users.findOne _ c) as [u|] eqn:Hf; [|discriminate].
    destruct (User.isEmailVerified u) eqn:Hv; [|discriminate]. simpl.
    destruct (bcrypt_compare pw' (User.password u)) eqn:Hc; [|discriminate].
    intros _. exists e', pw', u. repeat split; auto.
  - unfold Server.post_login.
    destruct (present e) as [e'|] eqn:He; [|destruct (present pw); discriminate].
    destruct (present pw) as [pw'|] eqn:Hpw; [|discriminate].
    apply present_Some in He, Hpw. destruct He as [-> _], Hpw as [-> _].
    destruct (Users.findOne _ c) as [u|] eqn:Hf; [|discriminate].
    destruct (bcrypt_compare pw' (User.password u)) eqn:Hc; [|discriminate].
    intros _. exists e', pw', u. repeat split; auto.
Qed.

End Refusals.

Lemma missing_input_refused_witness :
  @ServerClean.handle Sample.bcrypt Sample.clean_after_register
    (Sample.env 2000 xcd true)
    (PostRegister (Some "Joe"%string) (Some ""%string)
       (Some "hunter22"%string) None)
  = (Sample.clean_after_register, all_fields_required) /\
  @Server.handle Sample.bcrypt Sample.clean_after_register
    (Sample.env 2000 xcd true)
    (PostRegister (Some "Joe"%string) (Some ""%string)
       (Some "hunter22"%string) None)
  = (Sample.clean_after_register, all_fields_required).
Proof.
  apply (@missing_input_refused Sample.bcrypt Sample.clean_after_register
           (Sample.env 2000 xcd true)
           (PostRegister (Some "Joe"%string) (Some ""%string)
              (Some "hunter22"%string) None)).
  right. left. reflexivity.
Defined.

Lemma failed_requests_write_nothing_witness :
  fst (@ServerClean.handle Sample.bcrypt Sample.clean_after_register
         (Sample.env 2000 xcd true)
         (PostRegister (Some "Jane D."%string) Sample.jane
            (Some "hunter22"%string) (Some "coach"%string)))
  = Sample.clean_after_register.
Proof.
  destruct (@failed_requests_write_nothing Sample.bcrypt
              Sample.clean_after_register (Sample.env 2000 xcd true)
              (PostRegister (Some "Jane D."%string) Sample.jane
                 (Some "hunter22"%string) (Some "coach"%string)))
    as [Hclean _].
  refine (Hclean _ _ eq_refl _ _); discriminate.
Defined.

Lemma login_success_sound_witness :
  exists u,
    Users.findOne (Users.by_email "jane@x.com") Sample.server_after_register
    = Some u /\
    snd (@Server.post_login Sample.bcrypt Sample.server_after_register
           (Sample.env 2000 xcd true) Sample.jane (Some "secret123"%string))
    = login_ok u.
Proof.
  destruct (@login_success_sound Sample.bcrypt Sample.server_after_register
              (Sample.env 2000 xcd true) Sample.jane
              (Some "secret123"%string)) as [_ Hserver].
  destruct (Hserver eq_refl) as [e' [pw' [u [He [_ [Hf [_ Hr]]]]]]].
  injection He as <-. exists u. split; assumption.
Defined.

(* ------------------------------------------------------------------ *)
(** ** From registration to login *)

Section Flows.
Context `{Bcrypt}.

(** [GET /verify-email] for the token of the document that was appended
    last, which no earlier document carries. *)
Lemma verify_appended (c : Collection) env2 t x (u : User) :
  t <> ""%string ->
  User._id u = Users.fresh_id c ->
  User.emailVerificationToken u = Some t ->
  User.emailVerificationExpires u = Some x ->
  token_absent t c ->
  ServerClean.get_verify_email (c ++ [u]) env2 (Some t)
  = if Date_now env2 <? x
    then (c ++ [stamped (Date_now env2) (verified u)], email_verified)
    else (c ++ [u], invalid_or_expired).
Proof.
  intros Ht Hid Htok Hexp Habs. unfold ServerClean.get_verify_email.
  rewrite (present_string t Ht).
  assert (Hq : Users.by_valid_token t (Date_now env2) u = (Date_now env2 <? x)).
  { unfold Users.by_valid_token. rewrite Htok, Hexp, String.eqb_refl.
    reflexivity. }
  assert (Hfind : Users.findOne (Users.by_valid_token t (Date_now env2))
                    (c ++ [u])
                  = if Date_now env2 <? x then Some u else None).
  { unfold Users.findOne.
    rewrite find_app_none by (apply (token_absent_unmatched t); exact Habs).
    unfold find. rewrite Hq. reflexivity. }
  rewrite Hfind. destruct (Date_now env2 <? x); [|reflexivity].
  change (set_emailVerificationExpires None
            (set_emailVerificationToken None (set_isEmailVerified true u)))
    with (verified u).
  rewrite (save_modified_at (Date_now env2) c [] u (verified u)).
  - reflexivity.
  - intros d Hd. rewrite Hid. exact (fresh_id_fresh c d Hd).
  - reflexivity.
  - apply (verified_changed t). exact Htok.
Qed.

(** X5: server-clean.js, from registration to login.  After a complete
    registration of a new address, POST /login for that address is
    answered 401 "Please verify your email before logging in" whatever
    the password, the right one included; GET /verify-email with the token
    drawn, before its expiry, is answered 200; after it POST /login with
    the password of the registration is answered 200 with the summary of
    the account, now verified.  ([bcrypt.compare] is taken to accept the
    password against the hash stored for it, and the token to be carried
    by no other document.) *)
Theorem gated_registration_flow (c : Collection) env env1 env2 env3
    fn e pw ro :
  fn <> ""%string -> e <> ""%string -> pw <> ""%string -> ro <> ""%string ->
  Users.findOne (Users.by_email e) c = None ->
  token_absent (new_token env) c ->
  Date_now env2 < Date_now env + day_ms ->
  bcrypt_compare pw (bcrypt_hash pw 10%nat (bcrypt_salt env)) = true ->
  let u := created (Date_now env) (clean_fields env fn e pw ro) c in
  let u' := stamped (Date_now env2) (verified u) in
  ServerClean.post_register c env (Some fn) (Some e) (Some pw) (Some ro)
  = (c ++ [u], clean_registered env u) /\
  (forall p, p <> ""%string ->
     ServerClean.post_login (c ++ [u]) env1 (Some e) (Some p)
     = (c ++ [u], email_not_verified)) /\
  ServerClean.get_verify_email (c ++ [u]) env2 (Some (new_token env))
  = (c ++ [u'], email_verified) /\
  ServerClean.post_login (c ++ [u']) env3 (Some e) (Some pw)
  = (c ++ [u'], login_ok u') /\
  User.isEmailVerified u' = true.
Proof.
  intros Hfn He Hpw Hro Hf Habs Hlt Hcmp u u'.
  split; [apply clean_register_ok; assumption|].
  split; [|split; [|split; [|reflexivity]]].
  - intros p Hp. unfold ServerClean.post_login.
    rewrite !present_string by assumption.
    rewrite (findOne_appended e c u Hf eq_refl). reflexivity.
  - rewrite (verify_appended c env2 (new_token env)
               (Date_now env + day_ms) u (new_token_nonempty env)
               eq_refl eq_refl eq_refl Habs).
    apply Z.ltb_lt in Hlt. rewrite Hlt. reflexivity.
  - unfold ServerClean.post_login.
    rewrite !present_string by assumption.
    rewrite (findOne_appended e c u' Hf eq_refl).
    change (User.isEmailVerified u') with true.
    change (User.password u') with (bcrypt_hash pw 10%nat (bcrypt_salt env)).
    rewrite Hcmp. reflexivity.
Qed.

(** X6: the second server, from registration to login.  After a complete
    registration of a new address, POST /login with the password of the
    registration is answered 200 at once, with the summary of the account,
    which says isEmailVerified true; no verification step lies between.
    ([bcrypt.compare] is taken to accept the password against the hash
    stored for it.) *)
Theorem auto_verified_login (c : Collection) env env1 fn e pw ro :
  fn <> ""%string -> e <> ""%string -> pw <> ""%string -> ro <> ""%string ->
  Users.findOne (Users.by_email e) c = None ->
  bcrypt_compare pw (bcrypt_hash pw 10%nat (bcrypt_salt env)) = true ->
  let u := created (Date_now env) (server_fields env fn e pw ro) c in
  Server.post_register c env (Some fn) (Some e) (Some pw) (Some ro)
  = (c ++ [u], server_registered u) /\
  Server.post_login (c ++ [u]) env1 (Some e) (Some pw)
  = (c ++ [u], login_ok u) /\
  User.isEmailVerified u = true.
Proof.
  intros Hfn He Hpw Hro Hf Hcmp u.
  split; [apply server_register_ok; assumption|]. split; [|reflexivity].
  unfold Server.post_login.
  rewrite !present_string by assumption.
  rewrite (findOne_appended e c u Hf eq_refl).
  change (User.password u) with (bcrypt_hash pw 10%nat (bcrypt_salt env)).
  rewrite Hcmp. reflexivity.
Qed.

(** X7: server-clean.js, the life of an issued token.  The token stored
    by a complete registration of a new address (and carried by no other
    document) is accepted by GET /verify-email at every clock strictly
    before the clock of the registration plus 24 hours, and refused with
    400 "Invalid or expired verification token", the document untouched,
    from that instant on. *)
Theorem issued_token_window (c : Collection) env env2 fn e pw ro :
  fn <> ""%string -> e <> ""%string -> pw <> ""%string -> ro <> ""%string ->
  Users.findOne (Users.by_email e) c = None ->
  token_absent (new_token env) c ->
  let u := created (Date_now env) (clean_fields env fn e pw ro) c in
  fst (ServerClean.post_register c env (Some fn) (Some e) (Some pw) (Some ro))
  = c ++ [u] /\
  (Date_now env2 < Date_now env + 86400000 ->
   ServerClean.get_verify_email (c ++ [u]) env2 (Some (new_token env))
   = (c ++ [stamped (Date_now env2) (verified u)], email_verified)) /\
  (Date_now env + 86400000 <= Date_now env2 ->
   ServerClean.get_verify_email (c ++ [u]) env2 (Some (new_token env))
   = (c ++ [u], invalid_or_expired)).
Proof.
  intros Hfn He Hpw Hro Hf Habs u.
  split; [rewrite clean_register_ok by assumption; reflexivity|].
  pose proof (verify_appended c env2 (new_token env)
                (Date_now env + day_ms) u (new_token_nonempty env)
                eq_refl eq_refl eq_refl Habs) as Hv.
  change day_ms with 86400000 in Hv.
  split; intros Hclock; rewrite Hv.
  - apply Z.ltb_lt in Hclock. rewrite Hclock. reflexivity.
  - apply Z.ltb_ge in Hclock. rewrite Hclock. reflexivity.
Qed.

End Flows.

Lemma gated_registration_flow_witness :
  let c := Sample.clean_after_register in
  @ServerClean.post_login Sample.bcrypt c (Sample.env 1500 xcd true)
    Sample.jane (Some "secret123"%string) = (c, email_not_verified).
Proof.
  intros c.
  destruct (@gated_registration_flow Sample.bcrypt []
              (Sample.env 1000 xab true) (Sample.env 1500 xcd true)
              (Sample.env 2000 xcd true) (Sample.env 3000 xcd true)
              "Jane Doe" "jane@x.com" "secret123" "player")
    as [_ [Hgate _]];
    [discriminate | discriminate | discriminate | discriminate
    | reflexivity | intros u [] | reflexivity | reflexivity |].
  apply Hgate. discriminate.
Defined.

Lemma auto_verified_login_witness :
  exists u,
    @Server.post_login Sample.bcrypt Sample.server_after_register
      (Sample.env 1500 xcd true) Sample.jane (Some "secret123"%string)
    = (Sample.server_after_register, login_ok u) /\
    User.isEmailVerified u = true.
Proof.
  destruct (@auto_verified_login Sample.bcrypt []
              (Sample.env 1000 xab true) (Sample.env 1500 xcd true)
              "Jane Doe" "jane@x.com" "secret123" "player")
    as [_ [Hlogin Hv]];
    [discriminate | discriminate | discriminate | discriminate
    | reflexivity | reflexivity |].
  eexists. split; [exact Hlogin|exact Hv].
Defined.

Lemma issued_token_window_witness :
  ServerClean.get_verify_email Sample.clean_after_register
    (Sample.env 86401000 xcd true) (Some Sample.jane_token)
  = (Sample.clean_after_register, invalid_or_expired).
Proof.
  destruct (@issued_token_window Sample.bcrypt []
              (Sample.env 1000 xab true) (Sample.env 86401000 xcd true)
              "Jane Doe" "jane@x.com" "secret123" "player")
    as [_ [_ Hlate]];
    [discriminate | discriminate | discriminate | discriminate
    | reflexivity | intros u [] |].
  apply Hlate. vm_compute. discriminate.
Defined.

(* ------------------------------------------------------------------ *)
(** ** POST /resend-verification *)

Section Resend.
Context `{Bcrypt}.

Lemma find_at (q : User -> bool) (l1 l2 : Collection) (x : User) :
  (forall d, In d l1 -> q d = false) -> q x = true ->
  find q (l1 ++ x :: l2) = Some x.
Proof.
  intros Hl1 Hx. induction l1 as [|d l1 IH]; simpl.
  - rewrite Hx. reflexivity.
  - rewrite (Hl1 d) by (left; reflexivity).
    apply IH. intros d' Hd'. apply Hl1. right. exact Hd'.
Qed.

Lemma unique_ids_swap (l1 l2 : Collection) (u0 u1 : User) :
  User._id u1 = User._id u0 ->
  unique_ids (l1 ++ u0 :: l2) -> unique_ids (l1 ++ u1 :: l2).
Proof.
  unfold unique_ids. rewrite !map_app. simpl. intros ->. tauto.
Qed.

(** What the handler of server-clean.js does for an unverified account
    that does not carry the token drawn. *)
Lemma clean_resend_ok (c : Collection) env e u0 :
  e <> ""%string -> unique_ids c ->
  Users.findOne (Users.by_email e) c = Some u0 ->
  User.isEmailVerified u0 = false ->
  User.emailVerificationToken u0 <> Some (new_token env) ->
  exists l1 l2,
    c = l1 ++ u0 :: l2 /\
    (forall d, In d l1 -> Users.by_email e d = false) /\
    ServerClean.post_resend_verification c env (Some e)
    = (l1 ++ stamped (Date_now env) (reissued env u0) :: l2, resend_ok env).
Proof.
  intros He Hids Hf Hv Hne. unfold ServerClean.post_resend_verification.
  rewrite (present_string e He), Hf, Hv.
  destruct (find_split _ _ _ Hf) as [l1 [l2 [-> [_ Hl1]]]].
  exists l1, l2. split; [reflexivity|]. split; [exact Hl1|].
  change (set_emailVerificationExpires (Some (Date_now env + day_ms))
            (set_emailVerificationToken (Some (new_token env)) u0))
    with (reissued env u0).
  rewrite (save_modified (Date_now env) l1 l2 u0 (reissued env u0) Hids eq_refl).
  - reflexivity.
  - intros Heq. apply Hne. rewrite <- Heq. reflexivity.
Qed.

(** X8: server-clean.js, POST /resend-verification for a stored,
    unverified account (ids unique, the token drawn carried by no
    document) is answered 200 and replaces the token: from then on GET
    /verify-email with the token the account carried before is answered
    400 "Invalid or expired verification token", and GET /verify-email
    with the token drawn is answered 200 at every clock before the clock
    of the resend plus 24 hours, after which the account is verified. *)
Theorem resend_replaces_token (c : Collection) env e u0 t :
  e <> ""%string -> t <> ""%string -> unique_ids c ->
  Users.findOne (Users.by_email e) c = Some u0 ->
  User.isEmailVerified u0 = false ->
  User.emailVerificationToken u0 = Some t ->
  token_unique t c ->
  token_absent (new_token env) c ->
  exists c',
    ServerClean.post_resend_verification c env (Some e) = (c', resend_ok env) /\
    (forall env2,
       ServerClean.get_verify_email c' env2 (Some t) = (c', invalid_or_expired)) /\
    (forall env2, Date_now env2 < Date_now env + day_ms ->
       exists c'' u'',
         ServerClean.get_verify_email c' env2 (Some (new_token env))
         = (c'', email_verified) /\
         Users.findOne (Users.by_email e) c'' = Some u'' /\
         User.isEmailVerified u'' = true).
Proof.
  intros He Ht Hids Hf Hv Htok Huniq Habs.
  assert (Hin0 : In u0 c) by (apply find_some in Hf; tauto).
  assert (Hne : User.emailVerificationToken u0 <> Some (new_token env))
    by exact (Habs u0 Hin0).
  destruct (clean_resend_ok c env e u0 He Hids Hf Hv Hne)
    as [l1 [l2 [Hc [Hl1 Hrun]]]].
  subst c. set (u1 := stamped (Date_now env) (reissued env u0)) in *.
  exists (l1 ++ u1 :: l2). split; [exact Hrun|].
  assert (Hids1 : unique_ids (l1 ++ u1 :: l2))
    by exact (unique_ids_swap l1 l2 u0 u1 eq_refl Hids).
  assert (Hrest : forall x, In x l1 \/ In x l2 -> In x (l1 ++ u0 :: l2)).
  { intros x Hx. apply in_or_app. simpl. tauto. }
  split.
  - intros env2. apply verify_unmatched; [exact Ht|].
    apply token_absent_unmatched. intros x Hx Hxt.
    apply in_app_or in Hx. simpl in Hx.
    destruct Hx as [Hx|[<-|Hx]].
    + pose proof (Huniq x u0 (Hrest x (or_introl Hx)) Hin0 Hxt Htok) as ->.
      exact (unique_ids_split _ _ _ Hids u0 (or_introl Hx) eq_refl).
    + simpl in Hxt. congruence.
    + pose proof (Huniq x u0 (Hrest x (or_intror Hx)) Hin0 Hxt Htok) as ->.
      exact (unique_ids_split _ _ _ Hids u0 (or_intror Hx) eq_refl).
  - intros env2 Hlt.
    assert (Hq : Users.by_valid_token (new_token env) (Date_now env2) u1 = true).
    { unfold Users.by_valid_token.
      change (User.emailVerificationToken u1) with (Some (new_token env)).
      change (User.emailVerificationExpires u1)
        with (Some (Date_now env + day_ms)).
      cbv beta iota. rewrite String.eqb_refl.
      apply Z.ltb_lt in Hlt. rewrite Hlt. reflexivity. }
    assert (Hfind : Users.findOne
                      (Users.by_valid_token (new_token env) (Date_now env2))
                      (l1 ++ u1 :: l2) = Some u1).
    { apply find_at; [|exact Hq]. intros d Hd.
      destruct (Users.by_valid_token _ _ d) eqn:Hd'; [|reflexivity].
      apply valid_token_fields in Hd'. destruct Hd' as [Hdt _].
      exfalso. exact (Habs d (Hrest d (or_introl Hd)) Hdt). }
    exists (l1 ++ stamped (Date_now env2) (verified u1) :: l2),
           (stamped (Date_now env2) (verified u1)).
    split; [|split; [|reflexivity]].
    + unfold ServerClean.get_verify_email.
      rewrite (present_string _ (new_token_nonempty env)), Hfind.
      change (set_emailVerificationExpires None
                (set_emailVerificationToken None (set_isEmailVerified true u1)))
        with (verified u1).
      rewrite (save_modified (Date_now env2) l1 l2 u1 (verified u1) Hids1 eq_refl).
      * reflexivity.
      * apply (verified_changed (new_token env)). reflexivity.
    + apply find_at; [exact Hl1|].
      apply find_some in Hf. destruct Hf as [_ Hqe]. exact Hqe.
Qed.

(** X9: POST /resend-verification for an address that is not stored is
    answered 404 "User not found" by both servers; for a stored account
    that is verified, server-clean.js answers 400 "Email is already
    verified" and draws no new token.  Neither writes. *)
Theorem resend_refusals (c : Collection) env e :
  e <> ""%string ->
  (Users.findOne (Users.by_email e) c = None ->
   ServerClean.post_resend_verification c env (Some e) = (c, user_not_found) /\
   Server.post_resend_verification c env (Some e) = (c, user_not_found)) /\
  (forall u, Users.findOne (Users.by_email e) c = Some u ->
     User.isEmailVerified u = true ->
     ServerClean.post_resend_verification c env (Some e)
     = (c, already_verified)).
Proof.
  intros He. split.
  - intros Hf.
    unfold ServerClean.post_resend_verification, Server.post_resend_verification.
    rewrite (present_string e He), Hf. split; reflexivity.
  - intros u Hf Hv. unfold ServerClean.post_resend_verification.
    rewrite (present_string e He), Hf, Hv. reflexivity.
Qed.

End Resend.

Lemma resend_replaces_token_witness :
  exists c',
    ServerClean.post_resend_verification Sample.clean_after_register
      (Sample.env 5000 xcd true) Sample.jane
    = (c', resend_ok (Sample.env 5000 xcd true)) /\
    ServerClean.get_verify_email c' (Sample.env 6000 xcd true)
      (Some Sample.jane_token) = (c', invalid_or_expired).
Proof.
  destruct (@resend_replaces_token Sample.clean_after_register
              (Sample.env 5000 xcd true) "jane@x.com"
              (created 1000
                 (@clean_fields Sample.bcrypt (Sample.env 1000 xab true)
                    "Jane Doe" "jane@x.com" "secret123" "player") [])
              Sample.jane_token)
    as [c' [Hrun [Hold _]]];
    [discriminate | discriminate | exact sample_unique_ids
    | reflexivity | reflexivity | reflexivity | exact sample_token_unique
    | intros u [<-|[]] E; vm_compute in E; discriminate |].
  exists c'. split; [exact Hrun|apply Hold].
Defined.

Lemma resend_refusals_witness :
  ServerClean.post_resend_verification Sample.server_after_register
    (Sample.env 5000 xcd true) Sample.jane
  = (Sample.server_after_register, already_verified).
Proof.
  destruct (resend_refusals Sample.server_after_register
              (Sample.env 5000 xcd true) "jane@x.com") as [_ Hverified];
    [discriminate|].
  refine (Hverified _ eq_refl eq_refl).
Defined.

(* ------------------------------------------------------------------ *)
(** ** What every sequence of requests keeps *)

Section Kept.
Context `{Bcrypt}.

(** X10: whatever requests the servers have served since the collection
    was empty, no two accounts have the same id and no two accounts have
    the same e-mail address. *)
Theorem reachable_well_formed rs :
  well_formed (ServerClean.run [] rs) /\ well_formed (Server.run [] rs).
Proof.
  split.
  - apply clean_run_well_formed. exact empty_well_formed.
  - apply server_run_well_formed. exact empty_well_formed.
Qed.

Lemma extends_refl (c : Collection) : extends c c.
Proof. exists []. symmetry. apply app_nil_r. Qed.

Lemma extends_trans (a b c : Collection) :
  extends a b -> extends b c -> extends a c.
Proof.
  intros [n1 H1] [n2 H2]. exists (n1 ++ n2).
  rewrite H2, H1. symmetry. apply app_assoc.
Qed.

Lemma save_extends now (q : User -> bool) (c c' : Collection) (u0 u : User) :
  unique_ids c -> find q c = Some u0 -> core u = core u0 ->
  Users.save now u c = inr c' -> extends c c'.
Proof.
  intros Hids Hf Hcore Hs.
  assert (Hid : User._id u = User._id u0) by (unfold core in Hcore; congruence).
  destruct (save_found now q c u0 u Hids Hf Hid) as [l1 [l2 [-> [[_ Hs']|Hs']]]];
    rewrite Hs' in Hs; injection Hs as <-.
  - apply extends_refl.
  - exists []. rewrite app_nil_r, !map_app. simpl. f_equal. f_equal.
    rewrite <- Hcore. reflexivity.
Qed.

Lemma create_extends now f (c c' : Collection) u :
  Users.create now f c = inr (c', u) -> extends c c'.
Proof.
  intros Hc. apply create_inr in Hc. destruct Hc as [_ [-> _]].
  exists [core u]. apply map_app.
Qed.

Lemma verify_email_extends (c : Collection) env token :
  unique_ids c -> extends c (fst (ServerClean.get_verify_email c env token)).
Proof.
  intros Hids. unfold ServerClean.get_verify_email.
  destruct (present token); [|apply extends_refl].
  destruct (Users.findOne _ c) as [u0|] eqn:Hf; [|apply extends_refl].
  destruct (Users.save _ _ c) as [err|c'] eqn:Hs; [apply extends_refl|].
  refine (save_extends _ _ _ _ u0 _ Hids Hf _ Hs). reflexivity.
Qed.

Lemma clean_handle_extends (c : Collection) env r :
  unique_ids c -> extends c (fst (ServerClean.handle c env r)).
Proof.
  intros Hids. destruct r as [fn e p ro|token|e|e p|]; simpl.
  - unfold ServerClean.post_register.
    destruct (present fn), (present e), (present p), (present ro);
      try apply extends_refl.
    destruct (Users.findOne _ c); [apply extends_refl|].
    destruct (Users.create _ _ c) as [err|[c' u]] eqn:Hc; [apply extends_refl|].
    exact (create_extends _ _ _ _ _ Hc).
  - apply verify_email_extends. exact Hids.
  - unfold ServerClean.post_resend_verification.
    destruct (present e) as [e'|]; [|apply extends_refl].
    destruct (Users.findOne _ c) as [u0|] eqn:Hf; [|apply extends_refl].
    destruct (User.isEmailVerified u0); [apply extends_refl|].
    destruct (Users.save _ _ c) as [err|c'] eqn:Hs; [apply extends_refl|].
    refine (save_extends _ _ _ _ u0 _ Hids Hf _ Hs). reflexivity.
  - rewrite clean_login_read_only. apply extends_refl.
  - apply extends_refl.
Qed.

Lemma server_handle_extends (c : Collection) env r :
  unique_ids c -> extends c (fst (Server.handle c env r)).
Proof.
  intros Hids. destruct r as [fn e p ro|token|e|e p|]; simpl.
  - unfold Server.post_register.
    destruct (present fn), (present e), (present p), (present ro);
      try apply extends_refl.
    destruct (Users.findOne _ c); [apply extends_refl|].
    destruct (Users.create _ _ c) as [err|[c' u]] eqn:Hc; [apply extends_refl|].
    exact (create_extends _ _ _ _ _ Hc).
  - rewrite verify_email_same. apply verify_email_extends. exact Hids.
  - rewrite server_resend_read_only. apply extends_refl.
  - rewrite server_login_read_only. apply extends_refl.
  - apply extends_refl.
Qed.

(** X11: no request deletes or reorders accounts or changes the id,
    fullname, email, role, password or createdAt of a stored account:
    after any sequence of requests to a collection with unique ids and
    addresses, the stored accounts are the former ones, in their order and
    with these fields as they were, followed by the accounts registered
    since.  Holds for both servers. *)
Theorem accounts_only_appended (c : Collection) rs :
  well_formed c ->
  extends c (ServerClean.run c rs) /\ extends c (Server.run c rs).
Proof.
  intros Hwf. split; revert c Hwf.
  - induction rs as [|[env r] rs IH]; simpl; intros c Hwf;
      [apply extends_refl|].
    apply (extends_trans _ (fst (ServerClean.handle c env r))).
    + apply clean_handle_extends. exact (proj1 Hwf).
    + apply IH. apply clean_handle_well_formed. exact Hwf.
  - induction rs as [|[env r] rs IH]; simpl; intros c Hwf;
      [apply extends_refl|].
    apply (extends_trans _ (fst (Server.handle c env r))).
    + apply server_handle_extends. exact (proj1 Hwf).
    + apply IH. apply server_handle_well_formed. exact Hwf.
Qed.

End Kept.

Lemma accounts_only_appended_witness :
  extends Sample.clean_after_register
    (@ServerClean.run Sample.bcrypt Sample.clean_after_register
       [(Sample.env 2000 xcd true, GetVerifyEmail (Some Sample.jane_token));
        (Sample.env 3000 xef true,
         PostRegister (Some "Joe"%string) (Some "joe@x.com"%string)
           (Some "hunter22"%string) (Some "coach"%string))]).
Proof.
  refine (proj1 (@accounts_only_appended Sample.bcrypt
                   Sample.clean_after_register _ _)).
  split; repeat constructor; intros [].
Defined.

Section Verification.
Context `{Bcrypt}.

Lemma still_verified_here (u : User) (c : Collection) :
  In u c -> User.isEmailVerified u = true -> still_verified u c.
Proof. intros Hin Hv. exists u. auto. Qed.

(** A save of a document that is verified, or that differs from a found
    unverified one only outside [_id] and [isEmailVerified], keeps the
    verified accounts. *)
Lemma save_still_verified now (q : User -> bool) (c c' : Collection)
    (u0 u1 u : User) :
  unique_ids c -> find q c = Some u0 ->
  User._id u1 = User._id u0 ->
  (User.isEmailVerified u0 = true -> User.isEmailVerified u1 = true) ->
  Users.save now u1 c = inr c' ->
  In u c -> User.isEmailVerified u = true -> still_verified u c'.
Proof.
  intros Hids Hf Hid Hkeep Hs Hin Hv.
  destruct (save_found now q c u0 u1 Hids Hf Hid)
    as [l1 [l2 [-> [[_ Hs']|Hs']]]];
    rewrite Hs' in Hs; injection Hs as <-.
  - apply still_verified_here; assumption.
  - apply in_app_or in Hin. simpl in Hin.
    destruct Hin as [Hin|[<-|Hin]].
    + apply still_verified_here; [|exact Hv]. apply in_or_app. auto.
    + exists (stamped now u1). split; [apply in_or_app; simpl; auto|].
      split; [exact Hid|]. simpl. apply Hkeep. exact Hv.
    + apply still_verified_here; [|exact Hv]. apply in_or_app. simpl. auto.
Qed.

Lemma verify_email_still_verified (c : Collection) env token (u : User) :
  unique_ids c -> In u c -> User.isEmailVerified u = true ->
  still_verified u (fst (ServerClean.get_verify_email c env token)).
Proof.
  intros Hids Hin Hv. unfold ServerClean.get_verify_email.
  destruct (present token); [|apply still_verified_here; assumption].
  destruct (Users.findOne _ c) as [u0|] eqn:Hf;
    [|apply still_verified_here; assumption].
  destruct (Users.save _ _ c) as [err|c'] eqn:Hs;
    [apply still_verified_here; assumption|].
  refine (save_still_verified _ _ _ _ u0 _ u Hids Hf _ _ Hs Hin Hv);
    reflexivity.
Qed.

Lemma clean_handle_still_verified (c : Collection) env r (u : User) :
  unique_ids c -> In u c -> User.isEmailVerified u = true ->
  still_verified u (fst (ServerClean.handle c env r)).
Proof.
  intros Hids Hin Hv. destruct r as [fn e p ro|token|e|e p|]; simpl.
  - unfold ServerClean.post_register.
    destruct (present fn), (present e), (present p), (present ro);
      try (apply still_verified_here; assumption).
    destruct (Users.findOne _ c); [apply still_verified_here; assumption|].
    destruct (Users.create _ _ c) as [err|[c' u1]] eqn:Hc;
      [apply still_verified_here; assumption|].
    apply create_inr in Hc. destruct Hc as [_ [-> _]].
    apply still_verified_here; [|exact Hv]. apply in_or_app. auto.
  - apply verify_email_still_verified; assumption.
  - unfold ServerClean.post_resend_verification.
    destruct (present e) as [e'|]; [|apply still_verified_here; assumption].
    destruct (Users.findOne _ c) as [u0|] eqn:Hf;
      [|apply still_verified_here; assumption].
    destruct (User.isEmailVerified u0) eqn:Hv0;
      [apply still_verified_here; assumption|].
    destruct (Users.save _ _ c) as [err|c'] eqn:Hs;
      [apply still_verified_here; assumption|].
    refine (save_still_verified _ _ _ _ u0 _ u Hids Hf _ _ Hs Hin Hv);
      [reflexivity|congruence].
  - rewrite clean_login_read_only. apply still_verified_here; assumption.
  - apply still_verified_here; assumption.
Qed.

Lemma server_handle_still_verified (c : Collection) env r (u : User) :
  unique_ids c -> In u c -> User.isEmailVerified u = true ->
  still_verified u (fst (Server.handle c env r)).
Proof.
  intros Hids Hin Hv. destruct r as [fn e p ro|token|e|e p|]; simpl.
  - unfold Server.post_register.
    destruct (present fn), (present e), (present p), (present ro);
      try (apply still_verified_here; assumption).
    destruct (Users.findOne _ c); [apply still_verified_here; assumption|].
    destruct (Users.create _ _ c) as [err|[c' u1]] eqn:Hc;
      [apply still_verified_here; assumption|].
    apply create_inr in Hc. destruct Hc as [_ [-> _]].
    apply still_verified_here; [|exact Hv]. apply in_or_app. auto.
  - rewrite verify_email_same. apply verify_email_still_verified; assumption.
  - rewrite server_resend_read_only. apply still_verified_here; assumption.
  - rewrite server_login_read_only. apply still_verified_here; assumption.
  - apply still_verified_here; assumption.
Qed.

(** X12: verification is never undone.  An account that is verified stays
    stored and verified through every sequence of requests (to a
    collection with unique ids and addresses): no handler sets
    isEmailVerified back to false, and a resend for a verified account
    issues no token.  Holds for both servers. *)
Theorem verified_is_final (c : Collection) rs (u : User) :
  well_formed c -> In u c -> User.isEmailVerified u = true ->
  still_verified u (ServerClean.run c rs) /\
  still_verified u (Server.run c rs).
Proof.
  intros Hwf Hin Hv. split; revert c u Hwf Hin Hv.
  - induction rs as [|[env r] rs IH]; simpl; intros c u Hwf Hin Hv;
      [apply still_verified_here; assumption|].
    destruct (clean_handle_still_verified c env r u (proj1 Hwf) Hin Hv)
      as [u1 [Hin1 [Hid1 Hv1]]].
    destruct (IH _ u1 (clean_handle_well_formed c env r Hwf) Hin1 Hv1)
      as [u2 [Hin2 [Hid2 Hv2]]].
    exists u2. split; [exact Hin2|]. split; [congruence|exact Hv2].
  - induction rs as [|[env r] rs IH]; simpl; intros c u Hwf Hin Hv;
      [apply still_verified_here; assumption|].
    destruct (server_handle_still_verified c env r u (proj1 Hwf) Hin Hv)
      as [u1 [Hin1 [Hid1 Hv1]]].
    destruct (IH _ u1 (server_handle_well_formed c env r Hwf) Hin1 Hv1)
      as [u2 [Hin2 [Hid2 Hv2]]].
    exists u2. split; [exact Hin2|]. split; [congruence|exact Hv2].
Qed.

Lemma created_paired now f (c : Collection) t x :
  Users.f_emailVerificationToken f = Some t ->
  Users.f_emailVerificationExpires f = Some x ->
  token_paired (created now f c).
Proof.
  intros Ht Hx. unfold token_paired. simpl. rewrite Ht, Hx.
  split; discriminate.
Qed.

Lemma save_paired now (u : User) (c c' : Collection) :
  tokens_paired c -> token_paired u ->
  Users.save now u c = inr c' -> tokens_paired c'.
Proof.
  intros Hc Hu Hs x Hx.
  destruct (in_save _ _ _ _ _ Hs Hx) as [Hin| ->]; [exact (Hc x Hin)|exact Hu].
Qed.

Lemma create_paired now f (c c' : Collection) u t x :
  tokens_paired c ->
  Users.f_emailVerificationToken f = Some t ->
  Users.f_emailVerificationExpires f = Some x ->
  Users.create now f c = inr (c', u) -> tokens_paired c'.
Proof.
  intros Hc Ht Hx Hcr. apply create_inr in Hcr. destruct Hcr as [-> [-> _]].
  intros y Hy. apply in_app_or in Hy. destruct Hy as [Hy|[<-|[]]].
  - exact (Hc y Hy).
  - exact (created_paired now f c t x Ht Hx).
Qed.

Lemma verify_email_paired (c : Collection) env token :
  tokens_paired c ->
  tokens_paired (fst (ServerClean.get_verify_email c env token)).
Proof.
  intros Hc. unfold ServerClean.get_verify_email.
  destruct (present token); [|exact Hc].
  destruct (Users.findOne _ c) as [u0|]; [|exact Hc].
  destruct (Users.save _ _ c) as [err|c'] eqn:Hs; [exact Hc|].
  refine (save_paired _ _ _ _ Hc _ Hs). split; reflexivity.
Qed.

Lemma clean_handle_paired (c : Collection) env r :
  tokens_paired c -> tokens_paired (fst (ServerClean.handle c env r)).
Proof.
  intros Hc. destruct r as [fn e p ro|token|e|e p|]; simpl.
  - unfold ServerClean.post_register.
    destruct (present fn), (present e), (present p), (present ro);
      try exact Hc.
    destruct (Users.findOne _ c); [exact Hc|].
    destruct (Users.create _ _ c) as [err|[c' u]] eqn:Hcr; [exact Hc|].
    refine (create_paired _ _ _ _ _ _ _ Hc _ _ Hcr); reflexivity.
  - apply verify_email_paired. exact Hc.
  - unfold ServerClean.post_resend_verification.
    destruct (present e) as [e'|]; [|exact Hc].
    destruct (Users.findOne _ c) as [u0|]; [|exact Hc].
    destruct (User.isEmailVerified u0); [exact Hc|].
    destruct (Users.save _ _ c) as [err|c'] eqn:Hs; [exact Hc|].
    refine (save_paired _ _ _ _ Hc _ Hs). split; discriminate.
  - rewrite clean_login_read_only. exact Hc.
  - exact Hc.
Qed.

Lemma server_handle_paired (c : Collection) env r :
  tokens_paired c -> tokens_paired (fst (Server.handle c env r)).
Proof.
  intros Hc. destruct r as [fn e p ro|token|e|e p|]; simpl.
  - unfold Server.post_register.
    destruct (present fn), (present e), (present p), (present ro);
      try exact Hc.
    destruct (Users.findOne _ c); [exact Hc|].
    destruct (Users.create _ _ c) as [err|[c' u]] eqn:Hcr; [exact Hc|].
    refine (create_paired _ _ _ _ _ _ _ Hc _ _ Hcr); reflexivity.
  - rewrite verify_email_same. apply verify_email_paired. exact Hc.
  - rewrite server_resend_read_only. exact Hc.
  - rewrite server_login_read_only. exact Hc.
  - exact Hc.
Qed.

(** X13: the two token fields move together.  Whatever requests the
    servers have served since the collection was empty, every account has
    a token and an expiry, or neither: registration and resend set both,
    a successful verification nulls both, nothing else assigns to them. *)
Theorem reachable_tokens_paired rs :
  tokens_paired (ServerClean.run [] rs) /\ tokens_paired (Server.run [] rs).
Proof.
  assert (Hnil : tokens_paired []) by (intros u []).
  split; revert Hnil; generalize (@nil User).
  - induction rs as [|[env r] rs IH]; simpl; intros c Hc; [exact Hc|].
    apply IH. apply clean_handle_paired. exact Hc.
  - induction rs as [|[env r] rs IH]; simpl; intros c Hc; [exact Hc|].
    apply IH. apply server_handle_paired. exact Hc.
Qed.

Lemma server_handle_all_verified (c : Collection) env r :
  all_verified c -> all_verified (fst (Server.handle c env r)).
Proof.
  intros Hc. destruct r as [fn e p ro|token|e|e p|]; simpl.
  - unfold Server.post_register.
    destruct (present fn), (present e), (present p), (present ro);
      try exact Hc.
    destruct (Users.findOne _ c); [exact Hc|].
    destruct (Users.create _ _ c) as [err|[c' u]] eqn:Hcr; [exact Hc|].
    apply create_inr in Hcr. destruct Hcr as [-> [-> _]].
    intros y Hy. apply in_app_or in Hy. destruct Hy as [Hy|[<-|[]]];
      [exact (Hc y Hy)|reflexivity].
  - unfold Server.get_verify_email.
    destruct (present token); [|exact Hc].
    destruct (Users.findOne _ c) as [u0|]; [|exact Hc].
    destruct (Users.save _ _ c) as [err|c'] eqn:Hs; [exact Hc|].
    intros y Hy. destruct (in_save _ _ _ _ _ Hs Hy) as [Hin| ->];
      [exact (Hc y Hin)|reflexivity].
  - rewrite server_resend_read_only. exact Hc.
  - rewrite server_login_read_only. exact Hc.
  - exact Hc.
Qed.

(** X14: in the second server no unverified account is ever stored:
    whatever requests it has served since the collection was empty, every
    account has isEmailVerified true, so that its POST /login needs no
    verification check. *)
Theorem server_accounts_all_verified rs : all_verified (Server.run [] rs).
Proof.
  assert (Hnil : all_verified []) by (intros u []).
  revert Hnil. generalize (@nil User).
  induction rs as [|[env r] rs IH]; simpl; intros c Hc; [exact Hc|].
  apply IH. apply server_handle_all_verified. exact Hc.
Qed.

End Verification.

Lemma verified_is_final_witness :
  still_verified
    (created 1000
       (@server_fields Sample.bcrypt (Sample.env 1000 xab true)
          "Jane Doe" "jane@x.com" "secret123" "player") [])
    (@ServerClean.run Sample.bcrypt Sample.server_after_register
       [(Sample.env 2000 xcd true, PostResendVerification Sample.jane);
        (Sample.env 3000 xef true, GetVerifyEmail (Some Sample.jane_token))]).
Proof.
  refine (proj1 (@verified_is_final Sample.bcrypt
                   Sample.server_after_register _ _ _ _ _)).
  - split; repeat constructor; intros [].
  - left. reflexivity.
  - reflexivity.
Defined.

(* ------------------------------------------------------------------ *)
(** ** The token drawn *)

Section Tokens.
Context `{Bcrypt}.

Lemma hex_of_byte_inj (a b : byte) : hex_of_byte a = hex_of_byte b -> a = b.
Proof.
  pose (all := flat_map (fun n => match Byte.of_N (N.of_nat n) with
                                  | Some x => [x]
                                  | None => []
                                  end) (seq 0 256)).
  pose (dec := fun s => find (fun x => String.eqb (hex_of_byte x) s) all).
  assert (Hdec : forall x, dec (hex_of_byte x) = Some x)
    by (intros x; destruct x; vm_compute; reflexivity).
  intros E. pose proof (Hdec a) as Ha. rewrite E, Hdec in Ha.
  injection Ha as ->. reflexivity.
Qed.

Lemma toString_hex_inj (bs1 : list byte) : forall bs2,
  toString_hex bs1 = toString_hex bs2 -> bs1 = bs2.
Proof.
  induction bs1 as [|a bs1 IH]; intros [|b bs2]; simpl;
    try reflexivity; try discriminate.
  intros E. injection E as E1 E2 E3.
  f_equal; [|apply IH; exact E3].
  apply hex_of_byte_inj. unfold hex_of_byte. rewrite E1, E2. reflexivity.
Qed.

Lemma toString_hex_length (bs : list byte) :
  String.length (toString_hex bs) = (2 * List.length bs)%nat.
Proof.
  induction bs as [|b bs IH]; simpl; [reflexivity|]. rewrite IH. lia.
Qed.

(** X15: the verification token, [crypto.randomBytes(32).toString('hex')],
    always has 64 characters, and two requests draw the same token only
    if all of their 32 random bytes agree: the hexadecimal rendering loses
    nothing of the randomness. *)
Theorem new_token_shape env1 env2 :
  String.length (new_token env1) = 64%nat /\
  (new_token env1 = new_token env2 ->
   forall i, (i < 32)%nat -> crypto_random env1 i = crypto_random env2 i).
Proof.
  split.
  - unfold new_token, randomBytes. rewrite toString_hex_length.
    rewrite length_map, length_seq. reflexivity.
  - unfold new_token, randomBytes. intros E i Hi.
    apply toString_hex_inj in E.
    apply (proj1 (@map_ext_in_iff _ _ _ _ _) E i).
    apply in_seq. lia.
Qed.

Lemma token_unique_append t (c : Collection) (u : User) :
  token_unique t c ->
  (User.emailVerificationToken u = Some t -> token_absent t c) ->
  token_unique t (c ++ [u]).
Proof.
  intros Hc Hu x y Hx Hy Hxt Hyt.
  apply in_app_or in Hx, Hy.
  destruct Hx as [Hx|[<-|[]]], Hy as [Hy|[<-|[]]].
  - exact (Hc x y Hx Hy Hxt Hyt).
  - exfalso. exact (Hu Hyt x Hx Hxt).
  - exfalso. exact (Hu Hxt y Hy Hyt).
  - reflexivity.
Qed.

(** A save in place of a document that ends without the token, or with a
    token no document carried. *)
Lemma save_token_unique t now (q : User -> bool) (c c' : Collection)
    (u0 u1 : User) :
  unique_ids c -> find q c = Some u0 -> User._id u1 = User._id u0 ->
  token_unique t c ->
  (User.emailVerificationToken u1 = Some t -> token_absent t c) ->
  Users.save now u1 c = inr c' -> token_unique t c'.
Proof.
  intros Hids Hf Hid Hc Hu Hs.
  destruct (save_found now q c u0 u1 Hids Hf Hid)
    as [l1 [l2 [-> [[_ Hs']|Hs']]]];
    rewrite Hs' in Hs; injection Hs as <-; [exact Hc|].
  assert (Hrest : forall x, In x l1 \/ In x l2 -> In x (l1 ++ u0 :: l2)).
  { intros x Hx. apply in_or_app. simpl. tauto. }
  assert (Hsplit : forall x, In x (l1 ++ stamped now u1 :: l2) ->
                     x = stamped now u1 \/ (In x l1 \/ In x l2)).
  { intros x Hx. apply in_app_or in Hx. simpl in Hx.
    destruct Hx as [Hx|[<-|Hx]]; auto. }
  intros x y Hx Hy Hxt Hyt.
  destruct (Hsplit x Hx) as [->|Hx'], (Hsplit y Hy) as [->|Hy'].
  - reflexivity.
  - exfalso. exact (Hu Hxt y (Hrest y Hy') Hyt).
  - exfalso. exact (Hu Hyt x (Hrest x Hx') Hxt).
  - exact (Hc x y (Hrest x Hx') (Hrest y Hy') Hxt Hyt).
Qed.

Lemma verify_email_token_unique t (c : Collection) env token :
  unique_ids c -> token_unique t c ->
  token_unique t (fst (ServerClean.get_verify_email c env token)).
Proof.
  intros Hids Hc. unfold ServerClean.get_verify_email.
  destruct (present token); [|exact Hc].
  destruct (Users.findOne _ c) as [u0|] eqn:Hf; [|exact Hc].
  destruct (Users.save _ _ c) as [err|c'] eqn:Hs; [exact Hc|].
  refine (save_token_unique t _ _ _ _ u0 _ Hids Hf _ Hc _ Hs);
    [reflexivity|discriminate].
Qed.

Lemma clean_handle_token_unique t (c : Collection) env r :
  unique_ids c -> token_absent (new_token env) c -> token_unique t c ->
  token_unique t (fst (ServerClean.handle c env r)).
Proof.
  intros Hids Hnew Hc. destruct r as [fn e p ro|token|e|e p|]; simpl.
  - unfold ServerClean.post_register.
    destruct (present fn), (present e), (present p), (present ro);
      try exact Hc.
    destruct (Users.findOne _ c); [exact Hc|].
    destruct (Users.create _ _ c) as [err|[c' u]] eqn:Hcr; [exact Hc|].
    apply create_inr in Hcr. destruct Hcr as [-> [-> _]].
    apply token_unique_append; [exact Hc|].
    simpl. intros [= <-]. exact Hnew.
  - apply verify_email_token_unique; assumption.
  - unfold ServerClean.post_resend_verification.
    destruct (present e) as [e'|]; [|exact Hc].
    destruct (Users.findOne _ c) as [u0|] eqn:Hf; [|exact Hc].
    destruct (User.isEmailVerified u0); [exact Hc|].
    destruct (Users.save _ _ c) as [err|c'] eqn:Hs; [exact Hc|].
    refine (save_token_unique t _ _ _ _ u0 _ Hids Hf _ Hc _ Hs);
      [reflexivity|].
    simpl. intros [= <-]. exact Hnew.
  - rewrite clean_login_read_only. exact Hc.
  - exact Hc.
Qed.

Lemma server_handle_token_unique t (c : Collection) env r :
  unique_ids c -> token_absent (new_token env) c -> token_unique t c ->
  token_unique t (fst (Server.handle c env r)).
Proof.
  intros Hids Hnew Hc. destruct r as [fn e p ro|token|e|e p|]; simpl.
  - unfold Server.post_register.
    destruct (present fn), (present e), (present p), (present ro);
      try exact Hc.
    destruct (Users.findOne _ c); [exact Hc|].
    destruct (Users.create _ _ c) as [err|[c' u]] eqn:Hcr; [exact Hc|].
    apply create_inr in Hcr. destruct Hcr as [-> [-> _]].
    apply token_unique_append; [exact Hc|].
    simpl. intros [= <-]. exact Hnew.
  - rewrite verify_email_same. apply verify_email_token_unique; assumption.
  - rewrite server_resend_read_only. exact Hc.
  - rewrite server_login_read_only. exact Hc.
  - exact Hc.
Qed.

(** X16: as long as every request draws a token that no stored account
    carries at that moment, no token is ever carried by two accounts,
    whatever requests the servers have served since the collection was
    empty; with the unique ids of X10 this is what the single use of a
    token rests on. *)
Theorem tokens_never_shared rs t :
  (fresh_draws ServerClean.handle [] rs ->
   token_unique t (ServerClean.run [] rs)) /\
  (fresh_draws Server.handle [] rs ->
   token_unique t (Server.run [] rs)).
Proof.
  assert (Hnil : token_unique t []) by (intros u v []).
  pose proof empty_well_formed as Hwf.
  split; revert Hwf Hnil; generalize (@nil User).
  - induction rs as [|[env r] rs IH]; simpl; intros c Hwf Hc Hfresh;
      [exact Hc|].
    destruct Hfresh as [Hnew Hrest].
    apply IH; [apply clean_handle_well_formed; exact Hwf| |exact Hrest].
    apply clean_handle_token_unique; [exact (proj1 Hwf)|exact Hnew|exact Hc].
  - induction rs as [|[env r] rs IH]; simpl; intros c Hwf Hc Hfresh;
      [exact Hc|].
    destruct Hfresh as [Hnew Hrest].
    apply IH; [apply server_handle_well_formed; exact Hwf| |exact Hrest].
    apply server_handle_token_unique; [exact (proj1 Hwf)|exact Hnew|exact Hc].
Qed.

End Tokens.

Lemma new_token_shape_witness :
  crypto_random (Sample.env 1000 xab true) 7%nat
  = crypto_random (Sample.env 2000 xab false) 7%nat.
Proof.
  refine (proj2 (new_token_shape (Sample.env 1000 xab true)
                   (Sample.env 2000 xab false)) eq_refl 7%nat _).
  repeat constructor.
Defined.

Lemma tokens_never_shared_witness :
  token_unique Sample.jane_token
    (@ServerClean.run Sample.bcrypt []
       [(Sample.env 1000 xab true,
         PostRegister (Some "Jane Doe"%string) Sample.jane
           (Some "secret123"%string) (Some "player"%string));
        (Sample.env 2000 xcd true,
         PostRegister (Some "Joe"%string) (Some "joe@x.com"%string)
           (Some "hunter22"%string) (Some "coach"%string))]).
Proof.
  refine (proj1 (@tokens_never_shared Sample.bcrypt _ Sample.jane_token) _).
  split; [intros u []|]. split; [|exact I].
  intros u [<-|[]] E. vm_compute in E. discriminate.
Defined.
